(** * aws-stacks: the DOT renderer of [bin/create-dotfiles.ts]

    A shallow embedding of the three functions of [bin/create-dotfiles.ts]
    ([getArtifactsFromManifest], [createDotFile], [createDotFiles]) together
    with the properties of the dependency-graph renderer.

    - JavaScript strings are [string]; only concatenation and equality are
      used by the script.
    - A JavaScript object used as a record of named entries is an
      association list in property-creation order ([object]); the order in
      which [for ... in] and [Object.keys] visit it is computed by
      [own_entries].
    - Exceptions are the [Throw] case of [result].
    - The file system and the console are an explicit [World]. *)

From Stdlib Require Import Ascii NArith Sorted.
From stdpp Require Import gmap strings list pretty.

(** ** Strings *)

Definition dquote : string := String "034"%char EmptyString.
Definition newline : string := String "010"%char EmptyString.

(** ** Exceptions *)

Inductive exn : Type :=
  | ENOENT (path : string)      (* fs.readFileSync: no such file *)
  | EISDIR (path : string)      (* fs.readFileSync: the path is a directory *)
  | EACCES (path : string)      (* fs.writeFileSync: destination not writable *)
  | SyntaxError (text : string) (* JSON.parse: not well-formed JSON *)
  | TypeError.                  (* Object.keys(undefined) *)

Inductive result (A : Type) : Type :=
  | Ok (a : A)
  | Throw (e : exn).
Arguments Ok {A} a.
Arguments Throw {A} e.

#[global] Instance result_ret : MRet result := fun A a => Ok a.
#[global] Instance result_bind : MBind result := fun A B k r =>
  match r with
  | Ok a => k a
  | Throw e => Throw e
  end.

(** ** JavaScript objects and their enumeration order *)

Module JS.

(** Own enumerable string-keyed properties, in creation order. *)
Abbreviation object A := (list (string * A)).

Definition digit (c : ascii) : option N :=
  let n := N_of_ascii c in
  if ((48 <=? n) && (n <=? 57))%N then Some (n - 48)%N else None.

Fixpoint decimal (acc : N) (s : string) : option N :=
  match s with
  | EmptyString => Some acc
  | String c s' =>
      match digit c with
      | Some d => decimal (10 * acc + d)%N s'
      | None => None
      end
  end.

(** An array index is a canonical numeric string (no sign, no leading
    zero) whose value is at most 2^32 - 2. *)
Definition array_index (k : string) : option N :=
  match k with
  | EmptyString => None
  | String c rest =>
      if Ascii.eqb c "0"%char then
        match rest with EmptyString => Some 0%N | _ => None end
      else
        match decimal 0 k with
        | Some n => if (n <? 4294967295)%N then Some n else None
        | None => None
        end
  end.

Definition is_index (k : string) : bool :=
  match array_index k with Some _ => true | None => false end.

Definition index_of (k : string) : N :=
  match array_index k with Some n => n | None => 0%N end.

Fixpoint insert_sorted {A} (e : string * A) (l : list (string * A))
  : list (string * A) :=
  match l with
  | [] => [e]
  | e' :: l' =>
      if (index_of (fst e) <=? index_of (fst e'))%N then e :: l
      else e' :: insert_sorted e l'
  end.

Definition sort_by_index {A} (l : list (string * A)) : list (string * A) :=
  foldr insert_sorted [] l.

(** OrdinaryOwnPropertyKeys: array indices in ascending numeric order,
    then every other name in creation order.  Both [for (k in o)] and
    [Object.keys(o)] visit a plain object in this order. *)
Definition own_entries {A} (o : object A) : list (string * A) :=
  sort_by_index (List.filter (fun e => is_index (fst e)) o)
  ++ List.filter (fun e => negb (is_index (fst e))) o.

Definition keys {A} (o : object A) : list string := map fst (own_entries o).

(** The same names in the same order, each value replaced by its image. *)
Definition map_values {A B} (f : A -> B) (o : object A) : object B :=
  map (fun e => (fst e, f (snd e))) o.

(** [Object.keys(v)] where [v] may be [undefined]. *)
Definition Object_keys {A} (v : option (object A)) : result (list string) :=
  match v with
  | Some o => Ok (keys o)
  | None => Throw TypeError
  end.

(** [for (const k in o) body], threading the loop state and stopping at
    the first exception. *)
Fixpoint for_in {A S} (body : S -> string * A -> result S)
    (entries : list (string * A)) (s : S) : result S :=
  match entries with
  | [] => Ok s
  | e :: rest => s' ← body s e; for_in body rest s'
  end.

End JS.

(** ** Data model *)

#[local] Set Warnings "-register-all".

(** Property values are arbitrary JSON; the renderer never inspects them. *)
Inductive json : Type :=
  | JNull
  | JBool (b : bool)
  | JNumber (n : Z)                  (* integers suffice: values are opaque *)
  | JString (s : string)
  | JArray (items : list json)
  | JObject (fields : list (string * json)).

(** ** Values that came out of [JSON.parse], read without an interface

    The index is typed [any] by the script: every property access on it
    follows the rules of the language.  The names the script reads
    ([artifacts], [type], [properties], [file]) are defined by no
    prototype, so on a boolean, a number, a string or an array they read
    as [undefined], which is [None] here. *)

Module Value.

(** The own property [name] of an object. *)
Fixpoint own_property (name : string) (fields : list (string * json)) : option json :=
  match fields with
  | [] => None
  | (k, v) :: rest => if String.eqb k name then Some v else own_property name rest
  end.

(** [v.name]: reading a property of [null] throws a TypeError. *)
Definition get (v : json) (name : string) : result (option json) :=
  match v with
  | JNull => Throw TypeError
  | JObject fields => Ok (own_property name fields)
  | _ => Ok None
  end.

(** Truthiness: [undefined], [null], [false], zero and the empty string
    are falsy, everything else, an empty array or object included, is
    truthy. *)
Definition truthy (v : option json) : bool :=
  match v with
  | None => false
  | Some JNull => false
  | Some (JBool b) => b
  | Some (JNumber n) => negb (Z.eqb n 0)
  | Some (JString s) => negb (String.eqb s EmptyString)
  | Some (JArray _) => true
  | Some (JObject _) => true
  end.

(** [v === text] for a string literal [text]. *)
Definition is_string (v : option json) (text : string) : bool :=
  match v with
  | Some (JString s) => String.eqb s text
  | _ => false
  end.

(** The elements of an array or the characters of a string under their
    index names [0], [1], ... *)
Definition indexed (items : list json) : list (string * json) :=
  imap (fun i item => (pretty i, item)) items.

Definition characters (s : string) : list json :=
  map (fun c => JString (String c EmptyString)) (String.list_ascii_of_string s).

(** The pairs [(key, v[key])] that [for (const key in v)] visits:
    nothing for [undefined], [null], a boolean or a number. *)
Definition entries (v : option json) : list (string * json) :=
  match v with
  | Some (JObject fields) => JS.own_entries fields
  | Some (JArray items) => indexed items
  | Some (JString s) => indexed (characters s)
  | _ => []
  end.

End Value.

(** [interface CloudFormationResource].  [Properties] is declared
    mandatory, but [JSON.parse] does not enforce the interface: [None]
    stands for a resource read without that field.  [DependsOn] is
    declared optional.  The optional [Metadata] is never read. *)
Record CloudFormationResource : Type := {
  Type_ : string;
  DependsOn : option (list string);
  Properties : option (JS.object json)
}.

(** [interface CloudFormationTemplate]; [Metadata] and [Outputs] are never
    read by the script. *)
Record CloudFormationTemplate : Type := {
  Resources : JS.object CloudFormationResource
}.

(** ** createDotFile *)

Definition header : string :=
  "digraph Resources {" +:+ newline +:+ "node [shape=box fontname=" +:+ dquote
  +:+ "Avenir, Helvetica" +:+ dquote +:+ " fontsize=10];".

Definition footer : string := "}" +:+ newline.

Definition metadata_sentinel : string := "AWS::CDK::Metadata".

Definition quoted (resourceName : string) : string :=
  dquote +:+ resourceName +:+ dquote.

Definition node_line (resourceNameWithQuotes label : string) : string :=
  "  " +:+ resourceNameWithQuotes +:+ " [label=" +:+ dquote +:+ label
  +:+ dquote +:+ "];" +:+ newline.

Definition edge_line (resourceNameWithQuotes dependency : string) : string :=
  "  " +:+ resourceNameWithQuotes +:+ " -> " +:+ dquote +:+ dependency
  +:+ dquote +:+ ";" +:+ newline.

(** One iteration of the loop over [template.Resources]. *)
Definition resource_step (dotFile : string)
    (entry : string * CloudFormationResource) : result string :=
  let resourceName := fst entry in
  let resource := snd entry in
  let resourceNameWithQuotes := quoted resourceName in
  let label := Type_ resource in
  if String.eqb label metadata_sentinel then Ok dotFile (* continue *)
  else
    ks ← JS.Object_keys (Properties resource);
    let label := fold_left (fun label key => label +:+ newline +:+ key) ks label in
    let dotFile := dotFile +:+ node_line resourceNameWithQuotes label in
    let dotFile :=
      match DependsOn resource with
      | Some deps =>
          fold_left
            (fun dotFile dependency =>
               dotFile +:+ edge_line resourceNameWithQuotes dependency)
            deps dotFile
      | None => dotFile
      end in
    Ok dotFile.

Definition createDotFile (template : CloudFormationTemplate) : result string :=
  dotFile ← JS.for_in resource_step (JS.own_entries (Resources template)) header;
  Ok (dotFile +:+ footer).

(** ** The declarations appended to [dotFile]

    [createDotFile] builds its result by appending one piece of text per
    node and per edge.  [declarations] lists those pieces, in the order in
    which the loop appends them, as data; [createDotFile_declarations]
    below shows that the returned text is exactly their rendering between
    [header] and [footer]. *)

Inductive decl : Type :=
  | NodeDecl (name label : string)
  | EdgeDecl (source target : string).

Definition render_decl (d : decl) : string :=
  match d with
  | NodeDecl name label => node_line (quoted name) label
  | EdgeDecl source target => edge_line (quoted source) target
  end.

Definition join (pieces : list string) : string :=
  foldr String.append EmptyString pieces.

Definition render_decls (ds : list decl) : string := join (map render_decl ds).

Definition is_node (d : decl) : bool :=
  match d with NodeDecl _ _ => true | EdgeDecl _ _ => false end.

Definition is_edge (d : decl) : bool := negb (is_node d).

Definition is_metadata (resource : CloudFormationResource) : bool :=
  String.eqb (Type_ resource) metadata_sentinel.

Definition property_keys (resource : CloudFormationResource) : list string :=
  match Properties resource with
  | Some o => JS.keys o
  | None => []
  end.

Definition label_of (resource : CloudFormationResource) : string :=
  Type_ resource +:+ join (map (fun key => newline +:+ key) (property_keys resource)).

Definition dependencies (resource : CloudFormationResource) : list string :=
  match DependsOn resource with
  | Some deps => deps
  | None => []
  end.

(** The node of a resource followed by its edges. *)
Definition node_and_edges (entry : string * CloudFormationResource) : list decl :=
  NodeDecl (fst entry) (label_of (snd entry))
  :: map (EdgeDecl (fst entry)) (dependencies (snd entry)).

Definition resource_decls (entry : string * CloudFormationResource) : list decl :=
  if is_metadata (snd entry) then [] else node_and_edges entry.

Definition declarations (template : CloudFormationTemplate) : list decl :=
  flat_map resource_decls (JS.own_entries (Resources template)).

(** The resources the loop does not skip, in the order it visits them. *)
Definition rendered (template : CloudFormationTemplate)
  : list (string * CloudFormationResource) :=
  List.filter (fun e => negb (is_metadata (snd e))) (JS.own_entries (Resources template)).

(** A resource passes through the loop body without an exception when it
    is skipped or carries a [Properties] object. *)
Definition has_properties (resource : CloudFormationResource) : bool :=
  is_metadata resource ||
  match Properties resource with Some _ => true | None => false end.

(** Every resource of the declared interface satisfies [has_properties]. *)
Definition renderable (template : CloudFormationTemplate) : bool :=
  forallb (fun e => has_properties (snd e)) (Resources template).

(** ** The cloud-assembly index read by [getArtifactsFromManifest] *)

(** The index, [cdk.out/manifest.json], has no declared interface: it is
    the [json] value that [JSON.parse] returns. *)

(** [s.replace(/assets/g, 'template')]: the text is scanned from the left;
    at each match the replacement is emitted and the scan resumes after
    the six matched characters ([skip] counts those still to be dropped). *)
Fixpoint replace_go (skip : nat) (s : string) : string :=
  match s with
  | EmptyString => EmptyString
  | String c s' =>
      match skip with
      | S n => replace_go n s'
      | O =>
          if String.prefix "assets" s then "template" +:+ replace_go 5 s'
          else String c (replace_go 0 s')
      end
  end.

Definition replace_assets (s : string) : string := replace_go 0 s.

(** ** File system and console *)

Record World : Type := {
  files : gmap string string;   (* path to content *)
  unreadable : gmap string exn; (* paths on which a read fails, with the
                                   error thrown: a directory, no permission *)
  unwritable : gset string;     (* paths on which a write fails *)
  console : list exn            (* what console.error printed, oldest first *)
}.

Definition readFileSync (path : string) (w : World) : result string :=
  match unreadable w !! path with
  | Some error => Throw error
  | None =>
      match files w !! path with
      | Some data => Ok data
      | None => Throw (ENOENT path)
      end
  end.

Definition written (path data : string) (w : World) : World :=
  {| files := <[path := data]> (files w);
     unreadable := unreadable w;
     unwritable := unwritable w;
     console := console w |}.

Definition writeFileSync (path data : string) (w : World) : result World :=
  if decide (path ∈ unwritable w) then Throw (EACCES path)
  else Ok (written path data w).

Definition console_error (error : exn) (w : World) : World :=
  {| files := files w;
     unreadable := unreadable w;
     unwritable := unwritable w;
     console := console w ++ [error] |}.

(** [JSON.parse] read at the interface the script casts its result to. *)
Class JSON (A : Type) : Type := JSON_parse : string -> result A.

Section Script.

Context {template_json : JSON CloudFormationTemplate}
        {index_json : JSON json}.

(** [path.join] of Node.js, which depends on the platform. *)
Variable path_join : string -> string -> string.

Definition cdkDir : string := path_join "." "cdk.out".
Definition manifestPath : string := path_join cdkDir "manifest.json".

(** [path.join(cdkDir, file.replace(/assets/g, 'template'))] *)
Definition template_path (f : string) : string :=
  path_join cdkDir (replace_assets f).

(** One iteration of the loop over [manifest.artifacts], with
    [artifact = manifest.artifacts[key]].  The guard
    [artifact.type === 'cdk:asset-manifest' && artifact.properties &&
     artifact.properties.file] is evaluated from the left and stops at the
    first falsy operand; [artifact.properties.file.replace] is the
    replacement when the file is a string and is not a function
    otherwise. *)
Definition artifact_step (collected : list string) (entry : string * json)
  : result (list string) :=
  let artifact := snd entry in
  type ← Value.get artifact "type";
  if Value.is_string type "cdk:asset-manifest" then
    properties ← Value.get artifact "properties";
    match properties with
    | Some props =>
        if Value.truthy properties then
          file ← Value.get props "file";
          if Value.truthy file then
            match file with
            | Some (JString f) => Ok (collected ++ [template_path f])
            | _ => Throw TypeError
            end
          else Ok collected
        else Ok collected
    | None => Ok collected
    end
  else Ok collected.

(** [JSON.parse(fs.readFileSync(filePath, 'utf8'))] at the index. *)
Definition read_manifest (filePath : string) (w : World) : result json :=
  manifestData ← readFileSync filePath w;
  JSON_parse (A := json) manifestData.

Definition getArtifactsFromManifest (filePath : string) (w : World)
  : World * list string :=
  let attempt :=
    manifest ← read_manifest filePath w;
    artifacts ← Value.get manifest "artifacts";
    JS.for_in artifact_step (Value.entries artifacts) [] in
  match attempt with
  | Ok collected => (w, collected)
  | Throw error => (console_error error w, [])
  end.

(** [JSON.parse(fs.readFileSync(artifactPath, 'utf8'))] *)
Definition read_template (artifactPath : string) (w : World)
  : result CloudFormationTemplate :=
  data ← readFileSync artifactPath w;
  JSON_parse (A := CloudFormationTemplate) data.

(** The callback of [artifacts.forEach] in [createDotFiles]; the
    arguments of [fs.writeFileSync] are evaluated before the call. *)
Definition render_artifact (artifactPath : string) (w : World) : result World :=
  template ← read_template artifactPath w;
  document ← createDotFile template;
  writeFileSync (artifactPath +:+ ".dot") document w.

(** [Array.prototype.forEach]: an exception raised by the callback ends
    the iteration and reaches the caller; what was written before stays
    written. *)
Fixpoint createDotFiles (artifactPaths : list string) (w : World)
  : World * result unit :=
  match artifactPaths with
  | [] => (w, Ok ())
  | artifactPath :: rest =>
      match render_artifact artifactPath w with
      | Ok w' => createDotFiles rest w'
      | Throw e => (w, Throw e)
      end
  end.

(** The script body: [createDotFiles(getArtifactsFromManifest(manifestPath))]. *)
Definition main (w : World) : World * result unit :=
  let '(w', found) := getArtifactsFromManifest manifestPath w in
  createDotFiles found w'.

(** The isolate-and-continue policy for a batch: the call returns
    normally, every artifact that decodes and renders has its document
    written, and every decoding failure is on the console. *)
Definition isolate_and_continue (artifactPaths : list string) (w : World) : Prop :=
  snd (createDotFiles artifactPaths w) = Ok ()
  /\ (forall artifactPath template document,
        In artifactPath artifactPaths ->
        read_template artifactPath w = Ok template ->
        createDotFile template = Ok document ->
        files (fst (createDotFiles artifactPaths w)) !! (artifactPath +:+ ".dot")
        = Some document)
  /\ (forall artifactPath e,
        In artifactPath artifactPaths ->
        read_template artifactPath w = Throw e ->
        In e (console (fst (createDotFiles artifactPaths w)))).

End Script.

(** ** Vocabulary of the statements *)

Definition nodes (ds : list decl) : list (string * string) :=
  flat_map (fun d => match d with
                     | NodeDecl name label => [(name, label)]
                     | EdgeDecl _ _ => []
                     end) ds.

Definition edges (ds : list decl) : list (string * string) :=
  flat_map (fun d => match d with
                     | NodeDecl _ _ => []
                     | EdgeDecl source target => [(source, target)]
                     end) ds.

(** All node declarations first, as one block, then all edge declarations. *)
Definition nodes_then_edges (ds : list decl) : Prop :=
  exists ns es : list decl,
    ds = ns ++ es /\ forallb is_node ns = true /\ forallb is_edge es = true.

(** The non-metadata resources in the order the template lists them. *)
Definition listed (template : CloudFormationTemplate)
  : list (string * CloudFormationResource) :=
  List.filter (fun e => negb (is_metadata (snd e))) (Resources template).

Definition metadata_count (template : CloudFormationTemplate) : nat :=
  length (List.filter (fun e => is_metadata (snd e)) (Resources template)).

(** Ascending numeric order of array-index names. *)
Definition index_le {A} (e1 e2 : string * A) : Prop :=
  (JS.index_of (fst e1) <= JS.index_of (fst e2))%N.

Definition no_index_names (template : CloudFormationTemplate) : bool :=
  forallb (fun e => negb (JS.is_index (fst e))) (Resources template).





(** The artifacts of an index, in the order the loop visits them. *)
Definition artifacts_of (manifest : json) : list json :=
  match manifest with
  | JObject fields => map snd (Value.entries (Value.own_property "artifacts" fields))
  | _ => []
  end.

(** An object whose [type] is the string [cdk:asset-manifest]. *)
Definition is_asset_manifest (artifact : json) : bool :=
  match artifact with
  | JObject fields => Value.is_string (Value.own_property "type" fields) "cdk:asset-manifest"
  | _ => false
  end.

(** [artifact.properties.file] of an object whose [properties] is an
    object; no other [properties] has a [file]. *)
Definition file_field (artifact : json) : option json :=
  match artifact with
  | JObject fields =>
      match Value.own_property "properties" fields with
      | Some (JObject props) => Value.own_property "file" props
      | _ => None
      end
  | _ => None
  end.

(** What an artifact contributes: its file name when its type is
    [cdk:asset-manifest] and its [properties.file] is a non-empty string;
    nothing otherwise. *)
Definition kept (artifact : json) : list string :=
  if is_asset_manifest artifact then
    match file_field artifact with
    | Some (JString f) => if String.eqb f EmptyString then [] else [f]
    | _ => []
    end
  else [].

Definition asset_files (manifest : json) : list string :=
  flat_map kept (artifacts_of manifest).

(** An artifact on which the loop body throws: [null], or an asset
    manifest whose [properties.file] is truthy and not a string. *)
Definition faulty (artifact : json) : bool :=
  match artifact with
  | JNull => true
  | _ =>
      is_asset_manifest artifact
      && Value.truthy (file_field artifact)
      && match file_field artifact with Some (JString _) => false | _ => true end
  end.

(** An index on which the loop throws: [null] itself, or one with a
    faulty artifact. *)
Definition breaks (manifest : json) : bool :=
  match manifest with
  | JNull => true
  | _ => existsb faulty (artifacts_of manifest)
  end.

(** The file names of the artifacts of type [cdk:asset-manifest] that
    carry a string in a [properties.file] field, whatever the string. *)
Definition files_carried (manifest : json) : list string :=
  flat_map
    (fun artifact =>
       if is_asset_manifest artifact then
         match file_field artifact with
         | Some (JString f) => [f]
         | _ => []
         end
       else [])
    (artifacts_of manifest).

(** A resource with its [DependsOn] written out, empty when it was absent. *)
Definition explicit_dependencies (resource : CloudFormationResource)
  : CloudFormationResource :=
  {| Type_ := Type_ resource;
     DependsOn := Some (dependencies resource);
     Properties := Properties resource |}.

(** The template without its [AWS::CDK::Metadata] resources. *)
Definition without_metadata (template : CloudFormationTemplate)
  : CloudFormationTemplate :=
  {| Resources := listed template |}.

(** [s.includes(p)]: the text [p] occurs somewhere in [s]. *)
Fixpoint occurs (p s : string) : bool :=
  String.prefix p s ||
  match s with
  | EmptyString => false
  | String _ s' => occurs p s'
  end.

(** ** The text of a document, written out

    What a reader of the [.dot] file sees, character by character and
    independently of the constants of the embedding: character 10 is the
    line break, character 34 the double quote. *)

Definition dot_open : string :=
  "digraph Resources {"
  +:+ String "010"%char
        ("node [shape=box fontname="
         +:+ String "034"%char
               ("Avenir, Helvetica" +:+ String "034"%char " fontsize=10];")).

Definition dot_close : string := String "}"%char (String "010"%char EmptyString).

(** A node statement, two spaces, the quoted name and the quoted label;
    an edge statement, two spaces, the quoted source, an arrow and the
    quoted target; each ends with a semicolon and a line break. *)
Definition dot_statement (d : decl) : string :=
  match d with
  | NodeDecl name label =>
      "  " +:+ String "034"%char
                 (name +:+ String "034"%char
                             (" [label=" +:+ String "034"%char
                                (label +:+ String "034"%char
                                             ("];" +:+ String "010"%char EmptyString))))
  | EdgeDecl source target =>
      "  " +:+ String "034"%char
                 (source +:+ String "034"%char
                               (" -> " +:+ String "034"%char
                                  (target +:+ String "034"%char
                                                (";" +:+ String "010"%char EmptyString))))
  end.

Definition dot_statements (ds : list decl) : string :=
  String.concat EmptyString (map dot_statement ds).

(** ** Sample templates *)

Definition resource (tag : string) (deps : option (list string))
    (props : option (JS.object json)) : CloudFormationResource :=
  {| Type_ := tag; DependsOn := deps; Properties := props |}.

(** [{A: {Type: X, DependsOn: [B]}, B: {Type: Y, DependsOn: []}}] *)
Definition two_resources : CloudFormationTemplate :=
  {| Resources := [("A", resource "X" (Some ["B"]) (Some []));
                   ("B", resource "Y" (Some []) (Some []))] |}.

(** A queue with two properties, a dependency on a resource that does not
    exist, and the CDK bookkeeping resource. *)
Definition queue_stack : CloudFormationTemplate :=
  {| Resources :=
       [("Queue", resource "AWS::SQS::Queue" (Some ["Missing"; "Key"])
                    (Some [("QueueName", JString "jobs");
                           ("KmsMasterKeyId", JString "alias/aws/sqs")]));
        ("Key", resource "AWS::KMS::Key" None (Some [("Enabled", JBool true)]));
        ("CDKMetadata", resource "AWS::CDK::Metadata" None
                          (Some [("Analytics", JString "v2:deflate64")]))] |}.


(** A topic read without a [Properties] field. *)
Definition bare_topic : CloudFormationTemplate :=
  {| Resources := [("Topic", resource "AWS::SNS::Topic" None None)] |}.

(** Two resources of which the second is named by an array index. *)
Definition numbered : CloudFormationTemplate :=
  {| Resources := [("b", resource "X" None (Some []));
                   ("1", resource "Y" None (Some []))] |}.

Definition empty_template : CloudFormationTemplate := {| Resources := [] |}.

(** A bucket read without a [Properties] field. *)
Definition bare_bucket : CloudFormationTemplate :=
  {| Resources := [("Bucket", resource "AWS::S3::Bucket" None None)] |}.

(** A resource with a dependency and no [Properties] field, and the
    resource it depends on. *)
Definition dependent_without_properties : CloudFormationTemplate :=
  {| Resources := [("A", resource "X" (Some ["B"]) None);
                   ("B", resource "Y" (Some []) (Some []))] |}.

(** Two resources of which the second has no [Properties] field. *)
Definition second_without_properties : CloudFormationTemplate :=
  {| Resources := [("A", resource "X" None (Some [("Name", JString "a")]));
                   ("B", resource "Y" None None)] |}.

(** ** Sample indexes and file systems *)

(** [path.join] on a POSIX system for the plain names used below. *)
Definition posix_join (a b : string) : string :=
  if String.eqb a "." then b else a +:+ "/" +:+ b.

(** A decoder for the sample files: the text [two] stands for the JSON of
    [two_resources], [queue] for that of [queue_stack], [bare] for that of
    [bare_topic]; any other text is not JSON. *)
Definition sample_templates : JSON CloudFormationTemplate := fun text =>
  if String.eqb text "two" then Ok two_resources
  else if String.eqb text "queue" then Ok queue_stack
  else if String.eqb text "bare" then Ok bare_topic
  else Throw (SyntaxError text).

Definition artifact (type : string) (properties : list (string * json)) : json :=
  JObject [("type", JString type); ("properties", JObject properties)].

Definition asset_manifest (file : json) : json :=
  artifact "cdk:asset-manifest" [("file", file)].

Definition index (artifacts : list (string * json)) : json :=
  JObject [("version", JString "36.0.0"); ("artifacts", JObject artifacts)].

(** An index as [cdk synth] writes it: the tree, then per stack its asset
    manifest and the stack itself. *)
Definition sample_index : json :=
  index
    [("Tree", artifact "cdk:tree" [("file", JString "tree.json")]);
     ("Queue.assets", asset_manifest (JString "Queue.assets.json"));
     ("Queue", artifact "aws:cloudformation:stack"
                 [("templateFile", JString "Queue.template.json")]);
     ("Topic.assets", asset_manifest (JString "Topic.assets.json"))].

(** An index whose only asset manifest names the empty file. *)
Definition unnamed_index : json :=
  index [("Queue.assets", asset_manifest (JString EmptyString))].

(** An index whose second asset manifest has a number for a file. *)
Definition numbered_file_index : json :=
  index [("Queue.assets", asset_manifest (JString "Queue.assets.json"));
         ("Bad.assets", asset_manifest (JNumber 5))].

(** A decoder for the sample indexes; the text [null] is the JSON of
    [null] and any unlisted text is not JSON. *)
Definition sample_manifests : JSON json := fun text =>
  if String.eqb text "index" then Ok sample_index
  else if String.eqb text "unnamed" then Ok unnamed_index
  else if String.eqb text "numbered" then Ok numbered_file_index
  else if String.eqb text "null" then Ok JNull
  else Throw (SyntaxError text).

Definition world (fs : list (string * string)) (locked : list string) : World :=
  {| files := list_to_map fs;
     unreadable := ∅;
     unwritable := list_to_set locked;
     console := [] |}.

(** [a.json] is missing, [b.json] holds a template. *)
Definition one_missing : World := world [("b.json", "two")] [].

(** [a.json] is not JSON, [b.json] holds a template. *)
Definition one_malformed : World := world [("a.json", "{"); ("b.json", "two")] [].

(** Both files hold templates; [b.json.dot] cannot be written. *)
Definition one_locked : World :=
  world [("a.json", "two"); ("b.json", "queue"); ("c.json", "two")] ["b.json.dot"].

(** [a.json] holds a template, [b.json] is not JSON, [c.json] holds a
    template. *)
Definition second_malformed : World :=
  world [("a.json", "two"); ("b.json", "{"); ("c.json", "queue")] [].

(** The document of [two_resources]. *)
Definition two_resources_text : string :=
  header +:+ node_line (quoted "A") "X" +:+ edge_line (quoted "A") "B"
  +:+ node_line (quoted "B") "Y" +:+ footer.

(** [a.json] is a directory, [b.json] and [c.json] hold templates. *)
Definition first_is_directory : World :=
  {| files := list_to_map [("b.json", "two"); ("c.json", "queue")];
     unreadable := {[ "a.json" := EISDIR "a.json" ]};
     unwritable := ∅;
     console := [] |}.

(** [a.json] and [b.json] hold templates and everything can be written. *)
Definition both_valid : World :=
  world [("a.json", "two"); ("b.json", "queue")] [].

Definition with_index : World :=
  world [("cdk.out/manifest.json", "index")] [].

Definition with_unnamed_index : World :=
  world [("cdk.out/manifest.json", "unnamed")] [].

Definition with_numbered_file_index : World :=
  world [("cdk.out/manifest.json", "numbered")] [].

(** * Properties *)

(** ** Strings *)

Lemma append_nil (b : string) : EmptyString +:+ b = b.
Proof. reflexivity. Qed.

Lemma append_cons (x : ascii) (a b : string) :
  String x a +:+ b = String x (a +:+ b).
Proof. reflexivity. Qed.

Lemma append_assoc (a b c : string) : (a +:+ b) +:+ c = a +:+ (b +:+ c).
Proof.
  induction a as [|x a IH]; [reflexivity |].
  rewrite !append_cons. now f_equal.
Qed.

Lemma append_empty_r (a : string) : a +:+ EmptyString = a.
Proof.
  induction a as [|x a IH]; [reflexivity |].
  rewrite append_cons. now f_equal.
Qed.

Lemma join_app (l1 l2 : list string) : join (l1 ++ l2) = join l1 +:+ join l2.
Proof.
  induction l1 as [|x l1 IH]; [reflexivity |].
  change (x +:+ join (l1 ++ l2) = (x +:+ join l1) +:+ join l2).
  now rewrite IH, append_assoc.
Qed.

Lemma render_decls_app (d1 d2 : list decl) :
  render_decls (d1 ++ d2) = render_decls d1 +:+ render_decls d2.
Proof. unfold render_decls. now rewrite map_app, join_app. Qed.

(** A loop that appends one piece per element appends their [join]. *)
Lemma fold_left_append {A} (piece : A -> string) (l : list A) (acc : string) :
  fold_left (fun acc x => acc +:+ piece x) l acc = acc +:+ join (map piece l).
Proof.
  revert acc. induction l as [|x l IH]; intros acc.
  - simpl. now rewrite append_empty_r.
  - change (fold_left (fun acc x => acc +:+ piece x) l (acc +:+ piece x)
            = acc +:+ (piece x +:+ join (map piece l))).
    now rewrite IH, append_assoc.
Qed.

Lemma prefix_append (a b : string) : String.prefix a (a +:+ b) = true.
Proof.
  induction a as [|x a IH]; [now destruct b |].
  rewrite append_cons. simpl.
  destruct (ascii_dec x x); [assumption | congruence].
Qed.

(** ** Enumeration order *)

Module JSFacts.
Import JS.

Lemma insert_sorted_perm {A} (e : string * A) l : insert_sorted e l ≡ₚ e :: l.
Proof.
  induction l as [|e' l IH]; simpl; [reflexivity |].
  destruct (_ <=? _)%N; [reflexivity |].
  rewrite IH. apply Permutation_swap.
Qed.

Lemma sort_by_index_perm {A} (l : list (string * A)) : sort_by_index l ≡ₚ l.
Proof.
  induction l as [|e l IH]; simpl; [reflexivity |].
  now rewrite insert_sorted_perm, IH.
Qed.

Lemma insert_sorted_sorted {A} (e : string * A) l :
  Sorted index_le l -> Sorted index_le (insert_sorted e l).
Proof.
  induction 1 as [|e' l Hl IH Hhd]; simpl.
  - repeat constructor.
  - destruct (_ <=? _)%N eqn:Hle.
    + apply N.leb_le in Hle. repeat constructor; assumption.
    + apply N.leb_gt in Hle. constructor; [assumption |].
      destruct l as [|e'' l]; simpl.
      * constructor. unfold index_le. lia.
      * inversion Hhd; subst.
        destruct (_ <=? _)%N; constructor; [unfold index_le; lia | assumption].
Qed.

Lemma sort_by_index_sorted {A} (l : list (string * A)) :
  Sorted index_le (sort_by_index l).
Proof.
  induction l as [|e l IH]; [constructor |].
  now apply insert_sorted_sorted.
Qed.

Lemma own_entries_perm {A} (o : object A) : own_entries o ≡ₚ o.
Proof.
  unfold own_entries. rewrite sort_by_index_perm.
  induction o as [|e o IH]; [reflexivity |]. simpl.
  destruct (is_index (fst e)); simpl.
  - now rewrite IH.
  - rewrite <- Permutation_middle. now rewrite IH.
Qed.

Lemma own_entries_nil {A} : own_entries (@nil (string * A)) = [].
Proof. reflexivity. Qed.

(** Without array-index names the enumeration is the creation order. *)
Lemma own_entries_named {A} (o : object A) :
  forallb (fun e => negb (is_index (fst e))) o = true -> own_entries o = o.
Proof.
  unfold own_entries. induction o as [|e o IH]; [reflexivity |].
  simpl. intros [He Ho]%andb_prop. rewrite He.
  apply negb_true_iff in He. rewrite He.
  specialize (IH Ho).
  destruct (List.filter (fun e => is_index (fst e)) o) as [|p l] eqn:Hf.
  - simpl in *. now rewrite IH.
  - exfalso.
    assert (Hin : In p (List.filter (fun e => is_index (fst e)) o))
      by (rewrite Hf; now left).
    apply filter_In in Hin as [Hin Hp].
    rewrite forallb_forall in Ho.
    apply Ho in Hin. rewrite Hp in Hin. discriminate.
Qed.

End JSFacts.

(** ** The loop of [createDotFile] *)

Lemma label_fold (resource : CloudFormationResource) (o : JS.object json) :
  Properties resource = Some o ->
  fold_left (fun label key => label +:+ newline +:+ key) (JS.keys o) (Type_ resource)
  = label_of resource.
Proof.
  intros Ho. unfold label_of, property_keys. rewrite Ho.
  apply (fold_left_append (fun key => newline +:+ key)).
Qed.

Lemma resource_step_spec (dotFile : string) (entry : string * CloudFormationResource) :
  resource_step dotFile entry =
  if has_properties (snd entry)
  then Ok (dotFile +:+ render_decls (resource_decls entry))
  else Throw TypeError.
Proof.
  unfold resource_step, has_properties, resource_decls, is_metadata.
  destruct (String.eqb _ _); simpl.
  - now rewrite append_empty_r.
  - destruct (Properties (snd entry)) as [o|] eqn:Ho; simpl; [| reflexivity].
    rewrite (label_fold _ o Ho). f_equal.
    unfold render_decls, node_and_edges, dependencies. simpl.
    change (join (node_line ?a ?b :: ?l)) with (node_line a b +:+ join l).
    rewrite <- append_assoc.
    destruct (DependsOn (snd entry)) as [deps|]; simpl.
    + rewrite fold_left_append. now rewrite map_map.
    + now rewrite append_empty_r.
Qed.

Lemma for_in_resource_step (entries : list (string * CloudFormationResource))
    (dotFile : string) :
  JS.for_in resource_step entries dotFile =
  if forallb (fun e => has_properties (snd e)) entries
  then Ok (dotFile +:+ render_decls (flat_map resource_decls entries))
  else Throw TypeError.
Proof.
  revert dotFile. induction entries as [|e entries IH]; intros dotFile; simpl.
  - unfold render_decls. simpl. now rewrite append_empty_r.
  - rewrite resource_step_spec.
    destruct (has_properties (snd e)); simpl; [| reflexivity].
    rewrite IH. destruct (forallb _ entries); [| reflexivity].
    now rewrite render_decls_app, append_assoc.
Qed.

Lemma forallb_perm {A} (f : A -> bool) (l1 l2 : list A) :
  l1 ≡ₚ l2 -> forallb f l1 = forallb f l2.
Proof.
  induction 1 as [| x l1 l2 _ IH | x y l | l1 l2 l3 _ IH1 _ IH2]; simpl.
  - reflexivity.
  - now rewrite IH.
  - now rewrite !andb_assoc, (andb_comm (f y)).
  - congruence.
Qed.

(** What [createDotFile] returns, for every template. *)
Lemma createDotFile_declarations (template : CloudFormationTemplate) :
  createDotFile template =
  if renderable template
  then Ok (header +:+ render_decls (declarations template) +:+ footer)
  else Throw TypeError.
Proof.
  unfold createDotFile, renderable, declarations.
  rewrite for_in_resource_step.
  rewrite (forallb_perm _ _ _ (JSFacts.own_entries_perm (Resources template))).
  destruct (forallb _ _); simpl; [| reflexivity].
  now rewrite append_assoc.
Qed.

(** The constants and templates of the code produce the text written out
    in [dot_open], [dot_statement] and [dot_close]. *)
Lemma dot_statement_render (d : decl) : dot_statement d = render_decl d.
Proof.
  destruct d as [name label | source target]; simpl;
    unfold node_line, edge_line, quoted, dquote, newline;
    rewrite ?append_assoc, ?append_cons, ?append_nil; reflexivity.
Qed.

Lemma concat_join (pieces : list string) :
  String.concat EmptyString pieces = join pieces.
Proof.
  induction pieces as [|x l IH]; [reflexivity |].
  destruct l as [|y l].
  - simpl. now rewrite append_empty_r.
  - change (x +:+ EmptyString +:+ String.concat EmptyString (y :: l) = x +:+ join (y :: l)).
    now rewrite IH.
Qed.

Lemma dot_statements_render (ds : list decl) : dot_statements ds = render_decls ds.
Proof.
  unfold dot_statements, render_decls. rewrite concat_join. f_equal.
  apply map_ext. intros d. apply dot_statement_render.
Qed.

(** What createDotFile returns, as text. *)
Lemma createDotFile_text (template : CloudFormationTemplate) :
  createDotFile template =
  if renderable template
  then Ok (dot_open +:+ dot_statements (declarations template) +:+ dot_close)
  else Throw TypeError.
Proof.
  rewrite createDotFile_declarations, dot_statements_render. reflexivity.
Qed.

(** A template that inhabits the declared interface, where [Properties]
    is mandatory, is rendered without an exception. *)
Lemma interface_renderable (template : CloudFormationTemplate) :
  (forall e, In e (Resources template) -> Properties (snd e) <> None) ->
  renderable template = true.
Proof.
  intros Hall. unfold renderable. apply forallb_forall. intros e He.
  unfold has_properties. specialize (Hall e He).
  destruct (Properties (snd e)); [apply orb_true_r | contradiction].
Qed.

(** ** Header and footer *)

(** C7 as stated fails on a manifest with a resource read without
    Properties: createDotFile throws, so there is no output to begin with
    the header. *)
Lemma bare_bucket_no_document :
  createDotFile bare_bucket = Throw TypeError
  /\ ~ (exists body : string,
          createDotFile bare_bucket = Ok (dot_open +:+ body +:+ dot_close)).
Proof.
  split; [reflexivity |]. intros [body H]. discriminate H.
Qed.

(** C7, as the code has it.  For every manifest in which each resource
    that is rendered carries a Properties object, as the declared
    interface requires, the output of createDotFile begins with the fixed
    header (digraph Resources and the node styling statement) and ends
    with the closing brace and a line break; for a manifest without
    resources the output is exactly the header followed by the closing
    brace. *)
Theorem createDotFile_header_footer (template : CloudFormationTemplate) :
  renderable template = true ->
  exists body : string,
    createDotFile template = Ok (dot_open +:+ body +:+ dot_close)
    /\ String.prefix dot_open (dot_open +:+ body +:+ dot_close) = true
    /\ (Resources template = [] -> body = EmptyString).
Proof.
  intros Hr. exists (dot_statements (declarations template)).
  rewrite createDotFile_text, Hr.
  split; [reflexivity |]. split; [apply prefix_append |].
  intros Hnil. unfold declarations. now rewrite Hnil.
Qed.

Lemma createDotFile_header_footer_witness :
  renderable queue_stack = true /\
  exists body : string,
    createDotFile queue_stack = Ok (dot_open +:+ body +:+ dot_close)
    /\ String.prefix dot_open (dot_open +:+ body +:+ dot_close) = true
    /\ (Resources queue_stack = [] -> body = EmptyString).
Proof.
  split; [reflexivity |].
  apply (createDotFile_header_footer queue_stack). reflexivity.
Defined.

Example empty_template_document :
  createDotFile empty_template = Ok (header +:+ footer).
Proof. reflexivity. Qed.

(** ** Resources without properties *)

(** C2, as the code has it.  A resource that is rendered and lacks the
    Properties object makes createDotFile throw a TypeError (Object.keys
    of undefined), so no document is produced; a resource whose
    Properties object is present and empty gets a node whose label is
    exactly its type tag, with no property line. *)
Theorem createDotFile_properties_absent_or_empty
    (template : CloudFormationTemplate) (name : string)
    (r : CloudFormationResource) :
  In (name, r) (Resources template) ->
  is_metadata r = false ->
  (Properties r = None -> createDotFile template = Throw TypeError)
  /\ (Properties r = Some [] ->
      forall dotFile : string,
        resource_step dotFile (name, r) =
        Ok (dotFile +:+ node_line (quoted name) (Type_ r)
            +:+ join (map (edge_line (quoted name)) (dependencies r)))).
Proof.
  intros Hin Hmeta. split.
  - intros Hnone. rewrite createDotFile_declarations.
    destruct (renderable template) eqn:Hr; [exfalso | reflexivity].
    unfold renderable in Hr. rewrite forallb_forall in Hr.
    specialize (Hr _ Hin). unfold has_properties in Hr. simpl in Hr.
    rewrite Hmeta, Hnone in Hr. discriminate.
  - intros Hempty dotFile. rewrite resource_step_spec.
    unfold has_properties, resource_decls, node_and_edges. simpl.
    rewrite Hmeta, Hempty. simpl. f_equal. f_equal.
    unfold render_decls. simpl.
    unfold label_of, property_keys. rewrite Hempty. simpl.
    rewrite append_empty_r, map_map. reflexivity.
Qed.

Lemma createDotFile_properties_absent_or_empty_witness :
  In ("Topic", resource "AWS::SNS::Topic" None None) (Resources bare_topic)
  /\ is_metadata (resource "AWS::SNS::Topic" None None) = false
  /\ createDotFile bare_topic = Throw TypeError.
Proof.
  split; [left; reflexivity |]. split; [reflexivity |].
  apply (createDotFile_properties_absent_or_empty bare_topic "Topic"
           (resource "AWS::SNS::Topic" None None)).
  - left. reflexivity.
  - reflexivity.
  - reflexivity.
Defined.

(** C2 as stated fails: the topic without Properties is rendered by no
    document at all. *)
Lemma bare_topic_throws :
  In ("Topic", resource "AWS::SNS::Topic" None None) (Resources bare_topic)
  /\ createDotFile bare_topic = Throw TypeError
  /\ ~ (exists document : string, createDotFile bare_topic = Ok document).
Proof.
  split; [left; reflexivity |].
  split; [reflexivity |].
  intros [document H]. discriminate H.
Qed.

(** ** Nodes and edges *)

Lemma declarations_rendered (template : CloudFormationTemplate) :
  declarations template = flat_map node_and_edges (rendered template).
Proof.
  unfold declarations, rendered.
  induction (JS.own_entries (Resources template)) as [|e es IH]; [reflexivity |].
  simpl. unfold resource_decls at 1.
  destruct (is_metadata (snd e)); simpl; [assumption |].
  now rewrite IH.
Qed.

Lemma nodes_app (d1 d2 : list decl) : nodes (d1 ++ d2) = nodes d1 ++ nodes d2.
Proof. apply flat_map_app. Qed.

Lemma edges_app (d1 d2 : list decl) : edges (d1 ++ d2) = edges d1 ++ edges d2.
Proof. apply flat_map_app. Qed.

Lemma nodes_edge_decls (source : string) (targets : list string) :
  nodes (map (EdgeDecl source) targets) = [].
Proof. induction targets as [|x l IH]; [reflexivity | exact IH]. Qed.

Lemma edges_edge_decls (source : string) (targets : list string) :
  edges (map (EdgeDecl source) targets) = map (pair source) targets.
Proof.
  induction targets as [|x l IH]; [reflexivity |].
  simpl. f_equal. exact IH.
Qed.

Lemma nodes_node_and_edges (es : list (string * CloudFormationResource)) :
  nodes (flat_map node_and_edges es) = map (fun e => (fst e, label_of (snd e))) es.
Proof.
  induction es as [|e es IH]; [reflexivity |].
  change (flat_map node_and_edges (e :: es))
    with (node_and_edges e ++ flat_map node_and_edges es).
  rewrite nodes_app, IH.
  unfold node_and_edges.
  change (nodes (NodeDecl ?n ?l :: ?r)) with ((n, l) :: nodes r).
  now rewrite nodes_edge_decls.
Qed.

Lemma edges_node_and_edges (es : list (string * CloudFormationResource)) :
  edges (flat_map node_and_edges es) =
  flat_map (fun e => map (pair (fst e)) (dependencies (snd e))) es.
Proof.
  induction es as [|e es IH]; [reflexivity |].
  change (flat_map node_and_edges (e :: es))
    with (node_and_edges e ++ flat_map node_and_edges es).
  rewrite edges_app, IH.
  unfold node_and_edges.
  change (edges (NodeDecl ?n ?l :: ?r)) with (edges r).
  now rewrite edges_edge_decls.
Qed.

Lemma filter_length_perm {A} (f : A -> bool) (l1 l2 : list A) :
  l1 ≡ₚ l2 -> length (List.filter f l1) = length (List.filter f l2).
Proof.
  induction 1 as [| x l1 l2 _ IH | x y l | l1 l2 l3 _ IH1 _ IH2]; simpl.
  - reflexivity.
  - destruct (f x); simpl; now rewrite IH.
  - destruct (f x), (f y); reflexivity.
  - congruence.
Qed.

Lemma filter_length_negb {A} (f : A -> bool) (l : list A) :
  length (List.filter (fun x => negb (f x)) l)
  = length l - length (List.filter f l).
Proof.
  assert (H : length (List.filter (fun x => negb (f x)) l)
              + length (List.filter f l) = length l).
  { induction l as [|x l IH]; [reflexivity |].
    simpl. destruct (f x); simpl; lia. }
  lia.
Qed.

Lemma sum_filter_perm {A} (f : A -> bool) (g : A -> nat) (l1 l2 : list A) :
  l1 ≡ₚ l2 ->
  sum_list (map g (List.filter f l1)) = sum_list (map g (List.filter f l2)).
Proof.
  induction 1 as [| x l1 l2 _ IH | x y l | l1 l2 l3 _ IH1 _ IH2]; simpl.
  - reflexivity.
  - destruct (f x); simpl; now rewrite IH.
  - destruct (f x), (f y); simpl; lia.
  - congruence.
Qed.

Lemma length_flat_map_sum {A B} (g : A -> list B) (l : list A) :
  length (flat_map g l) = sum_list (map (fun x => length (g x)) l).
Proof.
  induction l as [|x l IH]; [reflexivity |].
  simpl. now rewrite length_app, IH.
Qed.

Lemma in_own_entries {A} (o : JS.object A) (e : string * A) :
  In e (JS.own_entries o) <-> In e o.
Proof.
  split; apply Permutation_in;
    [| symmetry]; apply JSFacts.own_entries_perm.
Qed.

Lemma NoDup_fst_unique {A} (l : list (string * A)) (k : string) (a b : A) :
  NoDup (map fst l) -> In (k, a) l -> In (k, b) l -> a = b.
Proof.
  induction l as [|[k' c] l IH]; simpl; [tauto |].
  intros Hnd Ha Hb. apply NoDup_cons in Hnd as [Hk Hnd].
  assert (Hfst : forall x, In (k', x) l -> False).
  { intros x Hx. apply Hk. apply list_elem_of_In.
    change k' with (fst (k', x)). now apply in_map. }
  destruct Ha as [Ha | Ha], Hb as [Hb | Hb].
  - congruence.
  - inversion Ha; subst. now destruct (Hfst b).
  - inversion Hb; subst. now destruct (Hfst a).
  - now apply IH.
Qed.

Lemma in_node_and_edges_node (e : string * CloudFormationResource)
    (name label : string) :
  In (NodeDecl name label) (node_and_edges e) ->
  name = fst e /\ label = label_of (snd e).
Proof.
  unfold node_and_edges. intros [H | H].
  - now inversion H.
  - apply in_map_iff in H as (x & Hx & _). discriminate Hx.
Qed.

(** The spec's example: the node of A, the edge from A to B, the node of B. *)
Example two_resources_document :
  createDotFile two_resources =
  Ok (header +:+ node_line (quoted "A") "X" +:+ edge_line (quoted "A") "B"
      +:+ node_line (quoted "B") "Y" +:+ footer).
Proof. reflexivity. Qed.

(** C3 as stated fails on the spec's own example: the edge from A to B is
    appended before the node of B, so the nodes do not form one block
    followed by the edges. *)
Lemma two_resources_interleaved :
  createDotFile two_resources =
    Ok (header +:+ render_decls [NodeDecl "A" "X"; EdgeDecl "A" "B"; NodeDecl "B" "Y"]
        +:+ footer)
  /\ declarations two_resources = [NodeDecl "A" "X"; EdgeDecl "A" "B"; NodeDecl "B" "Y"]
  /\ ~ nodes_then_edges (declarations two_resources).
Proof.
  split; [reflexivity |]. split; [reflexivity |].
  intros (ns & es & Heq & Hn & He).
  change (declarations two_resources)
    with [NodeDecl "A" "X"; EdgeDecl "A" "B"; NodeDecl "B" "Y"] in Heq.
  destruct ns as [|n1 [|n2 ns]]; simpl in Heq.
  - subst es. discriminate He.
  - inversion Heq; subst. discriminate He.
  - inversion Heq; subst. discriminate Hn.
Qed.

(** C3, as the code has it.  For every manifest in which each resource
    that is rendered carries a Properties object, the document is the
    header, then, for each resource that is not skipped and in the order
    the loop visits them, the node statement of that resource immediately
    followed by its own edge statements, then the closing marker. *)
Theorem createDotFile_node_with_its_edges (template : CloudFormationTemplate) :
  renderable template = true ->
  createDotFile template =
    Ok (dot_open
        +:+ dot_statements (flat_map node_and_edges (rendered template))
        +:+ dot_close).
Proof.
  intros Hr. rewrite createDotFile_text, Hr. now rewrite declarations_rendered.
Qed.

Lemma createDotFile_node_with_its_edges_witness :
  renderable two_resources = true /\
  createDotFile two_resources =
    Ok (dot_open
        +:+ dot_statements [NodeDecl "A" "X"; EdgeDecl "A" "B"; NodeDecl "B" "Y"]
        +:+ dot_close).
Proof.
  split; [reflexivity |].
  apply (createDotFile_node_with_its_edges two_resources). reflexivity.
Defined.

(** C4 as stated fails on a manifest whose resource A lists one
    dependency and was read without Properties: the DependsOn lengths sum
    to one, and createDotFile throws, so no edge is emitted. *)
Lemma dependent_without_properties_no_edges :
  sum_list (map (fun e => length (dependencies (snd e)))
                (listed dependent_without_properties)) = 1
  /\ createDotFile dependent_without_properties = Throw TypeError
  /\ ~ (exists document : string,
          createDotFile dependent_without_properties = Ok document).
Proof.
  split; [reflexivity |]. split; [reflexivity |].
  intros [document H]. discriminate H.
Qed.

(** C4, as the code has it.  For every manifest in which each resource
    that is rendered carries a Properties object, the document is the
    header, the statements of [declarations] and the closing marker, where
    the edge statements are, for each resource that is not the metadata
    sentinel, one statement per entry of its DependsOn list, written from
    the quoted resource name to the quoted dependency and in the order
    listed; their number is the sum of the DependsOn lengths over those
    resources; an edge is emitted whether or not its target names a
    resource. *)
Theorem createDotFile_edges (template : CloudFormationTemplate) :
  renderable template = true ->
  createDotFile template =
    Ok (dot_open +:+ dot_statements (declarations template) +:+ dot_close)
  /\ edges (declarations template) =
     flat_map (fun e => map (pair (fst e)) (dependencies (snd e))) (rendered template)
  /\ length (edges (declarations template)) =
     sum_list (map (fun e => length (dependencies (snd e))) (listed template))
  /\ (forall (name : string) (r : CloudFormationResource) (dependency : string),
        In (name, r) (Resources template) -> is_metadata r = false ->
        In dependency (dependencies r) ->
        In (EdgeDecl name dependency) (declarations template)).
Proof.
  intros Hr. rewrite createDotFile_text, Hr.
  split; [reflexivity |].
  rewrite declarations_rendered, edges_node_and_edges.
  split; [reflexivity |]. split.
  - rewrite length_flat_map_sum. unfold rendered, listed.
    rewrite (sum_filter_perm _ _ _ _ (JSFacts.own_entries_perm (Resources template))).
    f_equal. apply map_ext. intros e. apply length_map.
  - intros name r dependency Hin Hmeta Hdep.
    apply in_flat_map. exists (name, r). split.
    + unfold rendered. apply filter_In. split.
      * now apply in_own_entries.
      * simpl. now rewrite Hmeta.
    + right. now apply in_map.
Qed.

Lemma createDotFile_edges_witness :
  renderable queue_stack = true /\
  createDotFile queue_stack =
    Ok (dot_open
        +:+ dot_statements
              [NodeDecl "Queue"
                 ("AWS::SQS::Queue" +:+ newline +:+ "QueueName" +:+ newline +:+ "KmsMasterKeyId");
               EdgeDecl "Queue" "Missing"; EdgeDecl "Queue" "Key";
               NodeDecl "Key" ("AWS::KMS::Key" +:+ newline +:+ "Enabled")]
        +:+ dot_close) /\
  edges (declarations queue_stack) = [("Queue", "Missing"); ("Queue", "Key")] /\
  length (edges (declarations queue_stack)) = 2.
Proof.
  split; [reflexivity |].
  destruct (createDotFile_edges queue_stack eq_refl) as (Hdoc & He & Hl & _).
  split; [exact Hdoc |]. split; [exact He | exact Hl].
Defined.

(** C5 as stated fails on a manifest with two resources, neither of
    them the metadata sentinel, of which the second was read without
    Properties: the count asked for is two, and createDotFile throws, so
    no node is emitted. *)
Lemma second_without_properties_no_nodes :
  length (Resources second_without_properties)
    - metadata_count second_without_properties = 2
  /\ createDotFile second_without_properties = Throw TypeError
  /\ ~ (exists document : string,
          createDotFile second_without_properties = Ok document).
Proof.
  split; [reflexivity |]. split; [reflexivity |].
  intros [document H]. discriminate H.
Qed.

(** C5, as the code has it.  For every manifest in which each resource
    that is rendered carries a Properties object, the document is the
    header, the statements of [declarations] and the closing marker; no
    node statement is emitted for a resource whose type tag is
    AWS::CDK::Metadata, and the number of node statements is the number of
    resources minus the number of such resources. *)
Theorem createDotFile_nodes (template : CloudFormationTemplate) :
  renderable template = true ->
  createDotFile template =
    Ok (dot_open +:+ dot_statements (declarations template) +:+ dot_close)
  /\ nodes (declarations template) =
     map (fun e => (fst e, label_of (snd e))) (rendered template)
  /\ length (nodes (declarations template)) =
     length (Resources template) - metadata_count template
  /\ (NoDup (map fst (Resources template)) ->
      forall (name : string) (r : CloudFormationResource),
        In (name, r) (Resources template) -> is_metadata r = true ->
        forall label : string, ~ In (NodeDecl name label) (declarations template)).
Proof.
  intros Hr. rewrite createDotFile_text, Hr.
  split; [reflexivity |].
  rewrite declarations_rendered, nodes_node_and_edges.
  split; [reflexivity |]. split.
  - rewrite length_map. unfold rendered, metadata_count.
    rewrite (filter_length_perm _ _ _ (JSFacts.own_entries_perm (Resources template))).
    apply (filter_length_negb (fun e => is_metadata (snd e))).
  - intros Hnd name r Hin Hmeta label Hnode.
    apply in_flat_map in Hnode as ([name' r'] & He & Hnode).
    apply in_node_and_edges_node in Hnode as [-> _].
    unfold rendered in He. apply filter_In in He as [He Hr'].
    apply (proj1 (in_own_entries _ _)) in He. simpl in *.
    rewrite (NoDup_fst_unique _ _ _ _ Hnd Hin He) in Hmeta.
    rewrite Hmeta in Hr'. discriminate.
Qed.

Lemma createDotFile_nodes_witness :
  renderable queue_stack = true /\
  createDotFile queue_stack =
    Ok (dot_open +:+ dot_statements (declarations queue_stack) +:+ dot_close) /\
  nodes (declarations queue_stack) =
    [("Queue", "AWS::SQS::Queue" +:+ newline +:+ "QueueName" +:+ newline +:+ "KmsMasterKeyId");
     ("Key", "AWS::KMS::Key" +:+ newline +:+ "Enabled")] /\
  length (nodes (declarations queue_stack)) = 3 - 1 /\
  forall label : string, ~ In (NodeDecl "CDKMetadata" label) (declarations queue_stack).
Proof.
  split; [reflexivity |].
  destruct (createDotFile_nodes queue_stack eq_refl) as (Hdoc & Hn & Hl & Hm).
  split; [exact Hdoc |]. split; [exact Hn |]. split; [exact Hl |].
  apply (Hm ltac:(apply (bool_decide_unpack _); vm_compute; exact I) "CDKMetadata"
           (resource "AWS::CDK::Metadata" None
              (Some [("Analytics", JString "v2:deflate64")]))).
  - right. right. left. reflexivity.
  - reflexivity.
Defined.

(** ** Order of the nodes *)

(** C6 as stated fails when a resource is named by an array index: the
    loop visits 1 before b although the template lists b first. *)
Lemma numbered_not_in_insertion_order :
  createDotFile numbered =
    Ok (header +:+ node_line (quoted "1") "Y" +:+ node_line (quoted "b") "X" +:+ footer)
  /\ map fst (listed numbered) = ["b"; "1"]
  /\ map fst (nodes (declarations numbered)) = ["1"; "b"]
  /\ map fst (nodes (declarations numbered)) <> map fst (listed numbered).
Proof.
  split; [reflexivity |]. split; [reflexivity |]. split; [reflexivity |].
  discriminate.
Qed.

(** C6, as the code has it.  createDotFile is a function of the manifest
    alone, so rendering the same manifest again gives the same text; the
    node declarations appear in the order in which the for-in loop
    enumerates the manifest, which is the order the manifest lists its
    resources whenever no resource name is an array index (array indices
    are enumerated first, in ascending numeric order). *)
Theorem createDotFile_deterministic_order (template : CloudFormationTemplate) :
  renderable template = true ->
  createDotFile template =
    Ok (header +:+ render_decls (declarations template) +:+ footer)
  /\ (forall template' : CloudFormationTemplate,
        template' = template -> createDotFile template' = createDotFile template)
  /\ map fst (nodes (declarations template)) = map fst (rendered template)
  /\ (exists indexed named : list (string * CloudFormationResource),
        JS.own_entries (Resources template) = indexed ++ named
        /\ Sorted index_le indexed
        /\ indexed ≡ₚ List.filter (fun e => JS.is_index (fst e)) (Resources template)
        /\ named = List.filter (fun e => negb (JS.is_index (fst e))) (Resources template))
  /\ (no_index_names template = true ->
      map fst (nodes (declarations template)) = map fst (listed template)).
Proof.
  intros Hr.
  split; [now rewrite createDotFile_declarations, Hr |].
  split; [now intros ? -> |].
  rewrite declarations_rendered, nodes_node_and_edges, map_map. simpl.
  split; [reflexivity |]. split.
  - eexists _, _. split; [reflexivity |].
    split; [apply JSFacts.sort_by_index_sorted |].
    split; [apply JSFacts.sort_by_index_perm | reflexivity].
  - intros Hnames. unfold rendered, listed.
    now rewrite (JSFacts.own_entries_named _ Hnames).
Qed.

Lemma createDotFile_deterministic_order_witness :
  renderable queue_stack = true /\ no_index_names queue_stack = true /\
  map fst (nodes (declarations queue_stack)) = ["Queue"; "Key"].
Proof.
  split; [reflexivity |]. split; [reflexivity |].
  destruct (createDotFile_deterministic_order queue_stack eq_refl)
    as (_ & _ & _ & _ & Hlisted).
  exact (Hlisted eq_refl).
Defined.

(** ** Property values *)

Module EraseFacts.
Import JS.

Section Mapped.
Context {A B : Type} (f : A -> B).

Lemma filter_map_values (p : string -> bool) (o : object A) :
  List.filter (fun e => p (fst e)) (map_values f o)
  = map_values f (List.filter (fun e => p (fst e)) o).
Proof.
  induction o as [|e o IH]; [reflexivity |].
  simpl. destruct (p (fst e)); simpl; now rewrite IH.
Qed.

Lemma insert_sorted_map_values (e : string * A) (l : list (string * A)) :
  insert_sorted (fst e, f (snd e)) (map_values f l)
  = map_values f (insert_sorted e l).
Proof.
  induction l as [|e' l IH]; [reflexivity |].
  simpl. destruct (_ <=? _)%N; [reflexivity |].
  simpl. now rewrite IH.
Qed.

Lemma sort_by_index_map_values (l : list (string * A)) :
  sort_by_index (map_values f l) = map_values f (sort_by_index l).
Proof.
  induction l as [|e l IH]; [reflexivity |].
  change (insert_sorted (fst e, f (snd e)) (sort_by_index (map_values f l))
          = map_values f (insert_sorted e (sort_by_index l))).
  rewrite IH. apply insert_sorted_map_values.
Qed.

(** The enumeration order depends on the names only. *)
Lemma own_entries_map_values (o : object A) :
  own_entries (map_values f o) = map_values f (own_entries o).
Proof.
  unfold own_entries.
  rewrite (filter_map_values is_index).
  rewrite (filter_map_values (fun k => negb (is_index k))).
  rewrite sort_by_index_map_values. unfold map_values. now rewrite map_app.
Qed.

End Mapped.

End EraseFacts.










(** ** The batch *)

Section ScriptFacts.

Context {template_json : JSON CloudFormationTemplate}.

Lemma writeFileSync_ok (path data : string) (w w' : World) :
  writeFileSync path data w = Ok w' ->
  (path ∉ unwritable w) /\ w' = written path data w.
Proof.
  unfold writeFileSync. case_decide; [discriminate |].
  intros Hw. injection Hw as <-. auto.
Qed.

(** A successful iteration wrote one whole document and nothing else. *)
Lemma render_artifact_ok (artifactPath : string) (w w' : World) :
  render_artifact artifactPath w = Ok w' ->
  exists template document,
    read_template artifactPath w = Ok template
    /\ createDotFile template = Ok document
    /\ ((artifactPath +:+ ".dot") ∉ unwritable w)
    /\ w' = written (artifactPath +:+ ".dot") document w.
Proof.
  unfold render_artifact.
  destruct (read_template artifactPath w) as [template|]; [| discriminate].
  simpl. destruct (createDotFile template) as [document|] eqn:Hdoc; [| discriminate].
  simpl. intros Hw. exists template, document.
  split; [reflexivity |]. split; [exact Hdoc |].
  now apply writeFileSync_ok.
Qed.

Lemma createDotFiles_app (l1 l2 : list string) (w : World) :
  createDotFiles (l1 ++ l2) w =
  match createDotFiles l1 w with
  | (w1, Ok _) => createDotFiles l2 w1
  | (w1, Throw e) => (w1, Throw e)
  end.
Proof.
  revert w. induction l1 as [|p l1 IH]; intros w; simpl; [reflexivity |].
  destruct (render_artifact p w) as [w'|e]; [apply IH | reflexivity].
Qed.

(** [createDotFiles] never writes to the console. *)
Lemma createDotFiles_console (l : list string) (w : World) :
  console (fst (createDotFiles l w)) = console w.
Proof.
  revert w. induction l as [|p l IH]; intros w; simpl; [reflexivity |].
  destruct (render_artifact p w) as [w'|e] eqn:Hp; [| reflexivity].
  rewrite IH.
  apply render_artifact_ok in Hp as (template & document & _ & _ & _ & Hw).
  now rewrite Hw.
Qed.

(** Whatever a batch leaves in a file is what was there before or a
    document that [createDotFile] returned whole. *)
Lemma createDotFiles_files (l : list string) (w : World) (q content : string) :
  files (fst (createDotFiles l w)) !! q = Some content ->
  files w !! q = Some content
  \/ exists template, createDotFile template = Ok content.
Proof.
  revert w. induction l as [|p l IH]; intros w; simpl; [now left |].
  destruct (render_artifact p w) as [w'|e] eqn:Hp; [| now left].
  intros Hq. apply IH in Hq as [Hq | Hq]; [| now right].
  apply render_artifact_ok in Hp as (template & document & _ & Hdoc & _ & Hw).
  rewrite Hw in Hq. simpl in Hq. rewrite lookup_insert in Hq.
  case_decide.
  - right. exists template. congruence.
  - now left.
Qed.

Lemma length_append (a b : string) :
  String.length (a +:+ b) = String.length a + String.length b.
Proof.
  induction a as [|x a IH]; [reflexivity |].
  rewrite append_cons. simpl. now rewrite IH.
Qed.

Lemma dot_path_fresh (artifactPath : string) :
  artifactPath +:+ ".dot" <> artifactPath.
Proof.
  intros H. apply (f_equal String.length) in H.
  rewrite length_append in H. simpl in H. lia.
Qed.

(** Rendering an artifact again reads the same manifest and writes the
    same document: the second run changes nothing. *)
Lemma render_artifact_again (artifactPath : string) (w w' : World) :
  render_artifact artifactPath w = Ok w' -> render_artifact artifactPath w' = Ok w'.
Proof.
  intros Hp.
  apply render_artifact_ok in Hp as (template & document & Hread & Hdoc & Hfree & Hw).
  subst w'. unfold render_artifact.
  assert (Hsame : read_template artifactPath
                    (written (artifactPath +:+ ".dot") document w)
                  = Ok template).
  { rewrite <- Hread. unfold read_template, readFileSync. simpl.
    rewrite lookup_insert_ne; [reflexivity | apply dot_path_fresh]. }
  rewrite Hsame. simpl. rewrite Hdoc. simpl.
  unfold writeFileSync. simpl. case_decide; [contradiction |].
  f_equal. unfold written. simpl. f_equal. apply insert_insert_eq.
Qed.

End ScriptFacts.

Section BatchClaims.

Context {template_json : JSON CloudFormationTemplate}.

(** C1, as the code has it.  createDotFiles has no handler: when the
    manifest of an artifact cannot be read or parsed, the exception
    leaves createDotFiles and reaches the caller, nothing is logged,
    the documents of the artifacts before it stay written and the
    artifacts after it are not processed. *)
Theorem createDotFiles_decode_failure
    (before after : list string) (bad : string) (w w1 : World) (e : exn) :
  createDotFiles before w = (w1, Ok ()) ->
  read_template bad w1 = Throw e ->
  createDotFiles (before ++ bad :: after) w = (w1, Throw e)
  /\ console w1 = console w.
Proof.
  intros Hbefore Hbad. split.
  - rewrite createDotFiles_app, Hbefore. simpl.
    unfold render_artifact. now rewrite Hbad.
  - rewrite <- (createDotFiles_console before w). now rewrite Hbefore.
Qed.

(** C9. When writing a document fails the exception leaves
    createDotFiles and reaches the caller, without being logged.  The
    document handed to writeFileSync is the complete text returned by
    createDotFile: when createDotFile itself throws nothing is written,
    and whatever a batch leaves in a file is either what was there before
    or such a complete document. *)
Theorem createDotFiles_write_failure
    (before after : list string) (artifactPath : string) (w w1 : World)
    (template : CloudFormationTemplate) (document : string) :
  createDotFiles before w = (w1, Ok ()) ->
  read_template artifactPath w1 = Ok template ->
  createDotFile template = Ok document ->
  (artifactPath +:+ ".dot") ∈ unwritable w1 ->
  createDotFiles (before ++ artifactPath :: after) w
    = (w1, Throw (EACCES (artifactPath +:+ ".dot")))
  /\ console w1 = console w
  /\ (forall (p : string) (w0 : World) (t : CloudFormationTemplate) (e : exn)
             (rest : list string),
        read_template p w0 = Ok t -> createDotFile t = Throw e ->
        createDotFiles (p :: rest) w0 = (w0, Throw e))
  /\ (forall q content : string,
        files w1 !! q = Some content ->
        files w !! q = Some content
        \/ exists t : CloudFormationTemplate, createDotFile t = Ok content).
Proof.
  intros Hbefore Hread Hdoc Hlocked. split; [| split; [| split]].
  - rewrite createDotFiles_app, Hbefore. simpl.
    unfold render_artifact. rewrite Hread. simpl. rewrite Hdoc. simpl.
    unfold writeFileSync. now case_decide.
  - rewrite <- (createDotFiles_console before w). now rewrite Hbefore.
  - intros p w0 t e rest Hp Ht. simpl.
    unfold render_artifact. rewrite Hp. simpl. now rewrite Ht.
  - intros q content Hq. apply (createDotFiles_files before).
    now rewrite Hbefore.
Qed.

End BatchClaims.

Lemma createDotFiles_decode_failure_witness :
  createDotFiles (template_json := sample_templates) ["a.json"] second_malformed
    = (written "a.json.dot" two_resources_text second_malformed, Ok ())
  /\ read_template (template_json := sample_templates) "b.json"
       (written "a.json.dot" two_resources_text second_malformed)
     = Throw (SyntaxError "{")
  /\ createDotFiles (template_json := sample_templates)
       ["a.json"; "b.json"; "c.json"] second_malformed
     = (written "a.json.dot" two_resources_text second_malformed,
        Throw (SyntaxError "{"))
  /\ console (written "a.json.dot" two_resources_text second_malformed) = [].
Proof.
  split; [reflexivity |]. split; [reflexivity |].
  apply (createDotFiles_decode_failure (template_json := sample_templates)
           ["a.json"] ["c.json"] "b.json" second_malformed); reflexivity.
Defined.

(** C1 as stated fails: [a.json] is missing and [b.json] is a valid
    manifest, yet the call ends with the exception of [a.json], nothing
    is logged and [b.json.dot] is not written. *)
Lemma missing_manifest_aborts_batch :
  read_template (template_json := sample_templates) "b.json" one_missing
    = Ok two_resources
  /\ createDotFiles (template_json := sample_templates) ["a.json"; "b.json"] one_missing
     = (one_missing, Throw (ENOENT "a.json"))
  /\ files one_missing !! "b.json.dot" = None
  /\ console one_missing = []
  /\ ~ isolate_and_continue (template_json := sample_templates)
        ["a.json"; "b.json"] one_missing.
Proof.
  split; [reflexivity |]. split; [reflexivity |].
  split; [reflexivity |]. split; [reflexivity |].
  intros [Hok _]. discriminate Hok.
Qed.

(** The same with a manifest that is not JSON. *)
Example malformed_manifest_aborts_batch :
  createDotFiles (template_json := sample_templates) ["a.json"; "b.json"] one_malformed
  = (one_malformed, Throw (SyntaxError "{")).
Proof. reflexivity. Qed.

Lemma createDotFiles_write_failure_witness :
  createDotFiles (template_json := sample_templates)
    ["a.json"; "b.json"; "c.json"] one_locked
  = (written "a.json.dot" two_resources_text one_locked, Throw (EACCES "b.json.dot"))
  /\ console (written "a.json.dot" two_resources_text one_locked) = console one_locked.
Proof.
  refine ((fun H => conj (proj1 H) (proj1 (proj2 H))) _).
  apply (createDotFiles_write_failure (template_json := sample_templates)
           ["a.json"] ["c.json"] "b.json" one_locked
           (written "a.json.dot" two_resources_text one_locked)
           queue_stack (header +:+ render_decls (declarations queue_stack) +:+ footer)).
  - reflexivity.
  - reflexivity.
  - reflexivity.
  - apply (bool_decide_unpack _). vm_compute. exact I.
Defined.

(** ** The index *)

Lemma replace_assets_empty : replace_assets EmptyString = EmptyString.
Proof. reflexivity. Qed.

(** At a match the replacement is emitted and the scan resumes behind it. *)
Lemma replace_assets_match (s : string) :
  replace_assets ("assets" +:+ s) = "template" +:+ replace_assets s.
Proof.
  unfold replace_assets.
  change ("assets" +:+ s) with (String "a" ("ssets" +:+ s)).
  cbn [replace_go].
  change (String "a" ("ssets" +:+ s)) with ("assets" +:+ s).
  rewrite prefix_append. reflexivity.
Qed.

(** Elsewhere the character is kept and the scan moves on by one. *)
Lemma replace_assets_other (c : ascii) (s : string) :
  String.prefix "assets" (String c s) = false ->
  replace_assets (String c s) = String c (replace_assets s).
Proof.
  intros H. unfold replace_assets. cbn [replace_go]. now rewrite H.
Qed.

Lemma flat_map_map {A B C} (f : B -> list C) (g : A -> B) (l : list A) :
  flat_map f (map g l) = flat_map (fun x => f (g x)) l.
Proof.
  induction l as [|x l IH]; [reflexivity |]. simpl. now rewrite IH.
Qed.

Lemma existsb_map {A B} (f : B -> bool) (g : A -> B) (l : list A) :
  existsb f (map g l) = existsb (fun x => f (g x)) l.
Proof.
  induction l as [|x l IH]; [reflexivity |]. simpl. now rewrite IH.
Qed.

Section IndexClaims.

Context {template_json : JSON CloudFormationTemplate}
        {index_json : JSON json}.
Variable path_join : string -> string -> string.

Lemma artifact_step_spec (collected : list string) (entry : string * json) :
  artifact_step path_join collected entry =
  if faulty (snd entry) then Throw TypeError
  else Ok (collected ++ map (template_path path_join) (kept (snd entry))).
Proof.
  destruct entry as [key artifact].
  unfold artifact_step, faulty, kept, is_asset_manifest, file_field. simpl.
  destruct artifact as [| b | n | text | items | fields]; simpl;
    try reflexivity; try (now rewrite app_nil_r).
  destruct (Value.is_string (Value.own_property "type" fields) "cdk:asset-manifest");
    simpl; [| now rewrite app_nil_r].
  destruct (Value.own_property "properties" fields)
    as [[| b | n | text | items | props]|]; simpl;
    try (now rewrite app_nil_r);
    try (destruct b; simpl; now rewrite app_nil_r);
    try (destruct (Z.eqb n 0); simpl; now rewrite app_nil_r);
    try (destruct (String.eqb text EmptyString); simpl; now rewrite app_nil_r).
  destruct (Value.own_property "file" props)
    as [[| b | n | text | items' | fields']|]; simpl;
    try (now rewrite app_nil_r);
    try reflexivity.
  - destruct b; simpl; [reflexivity | now rewrite app_nil_r].
  - destruct (Z.eqb n 0); simpl; [now rewrite app_nil_r | reflexivity].
  - destruct (String.eqb text EmptyString); simpl; [now rewrite app_nil_r | reflexivity].
Qed.

Lemma for_in_artifact_step (entries : list (string * json)) (collected : list string) :
  JS.for_in (artifact_step path_join) entries collected =
  if existsb (fun e => faulty (snd e)) entries then Throw TypeError
  else Ok (collected
           ++ map (template_path path_join) (flat_map (fun e => kept (snd e)) entries)).
Proof.
  revert collected. induction entries as [|e entries IH]; intros collected.
  - simpl. now rewrite app_nil_r.
  - cbn [JS.for_in existsb]. rewrite artifact_step_spec.
    destruct (faulty (snd e)); [reflexivity |].
    unfold mbind, result_bind. rewrite IH. simpl orb.
    destruct (existsb _ entries); [reflexivity |].
    simpl flat_map. now rewrite map_app, app_assoc.
Qed.

(** What the function returns once the index is decoded. *)
Lemma getArtifactsFromManifest_decoded (filePath : string) (w : World) (manifest : json) :
  read_manifest filePath w = Ok manifest ->
  getArtifactsFromManifest path_join filePath w =
  if breaks manifest then (console_error TypeError w, [])
  else (w, map (template_path path_join) (asset_files manifest)).
Proof.
  intros Hread. unfold getArtifactsFromManifest. rewrite Hread.
  unfold mbind, result_bind, breaks, asset_files, artifacts_of.
  destruct manifest as [| b | n | text | items | fields]; try reflexivity.
  unfold Value.get. rewrite for_in_artifact_step, existsb_map, flat_map_map.
  now destruct (existsb _ _).
Qed.

(** Which file names the loop keeps. *)
Lemma in_kept (artifact : json) (f : string) :
  In f (kept artifact) <->
  exists (fields props : list (string * json)),
    artifact = JObject fields
    /\ Value.own_property "type" fields = Some (JString "cdk:asset-manifest")
    /\ Value.own_property "properties" fields = Some (JObject props)
    /\ Value.own_property "file" props = Some (JString f)
    /\ f <> EmptyString.
Proof.
  unfold kept, is_asset_manifest, file_field, Value.is_string. split.
  - intros H.
    destruct artifact as [| b | n | text | items | fields];
      try (simpl in H; contradiction).
    destruct (Value.own_property "type" fields) as [[| b | n | t | items | fs]|]
      eqn:Htype; try (simpl in H; contradiction).
    destruct (String.eqb t "cdk:asset-manifest") eqn:Ht;
      [| simpl in H; contradiction].
    destruct (Value.own_property "properties" fields)
      as [[| b | n | text | items | props]|] eqn:Hprops;
      try (simpl in H; contradiction).
    destruct (Value.own_property "file" props)
      as [[| b | n | text | items | fs]|] eqn:Hfile; try (simpl in H; contradiction).
    destruct (String.eqb text EmptyString) eqn:Htext; [simpl in H; contradiction |].
    destruct H as [<- | []]. exists fields, props.
    apply String.eqb_eq in Ht. apply String.eqb_neq in Htext. subst t. auto.
  - intros (fields & props & -> & Htype & Hprops & Hfile & Hf).
    rewrite Htype, Hprops, Hfile. rewrite String.eqb_refl.
    apply String.eqb_neq in Hf. rewrite Hf. now left.
Qed.

(** C10, as the code has it.  Provided the loop over the artifacts does
    not throw, getArtifactsFromManifest returns, in the order the index is
    enumerated, the artifacts that are objects whose type is the string
    cdk:asset-manifest and whose properties.file is a non-empty string,
    each as path.join(cdkDir, file) with every occurrence of assets in
    the file name replaced by template.  When the index cannot be read or
    parsed, or the loop throws (the index is null, an artifact is null,
    or an asset manifest has a truthy properties.file that is not a
    string), the error is logged and the empty list is returned, so that
    the script writes nothing and ends normally. *)
Theorem getArtifactsFromManifest_spec (filePath : string) (w : World) :
  (forall manifest : json,
      read_manifest filePath w = Ok manifest ->
      breaks manifest = false ->
      getArtifactsFromManifest path_join filePath w
      = (w, map (fun f => path_join (cdkDir path_join) (replace_assets f))
                (asset_files manifest)))
  /\ (forall (artifact : json) (f : string),
        In f (kept artifact) <->
        exists (fields props : list (string * json)),
          artifact = JObject fields
          /\ Value.own_property "type" fields = Some (JString "cdk:asset-manifest")
          /\ Value.own_property "properties" fields = Some (JObject props)
          /\ Value.own_property "file" props = Some (JString f)
          /\ f <> EmptyString)
  /\ (forall s : string,
        replace_assets ("assets" +:+ s) = "template" +:+ replace_assets s)
  /\ (forall (c : ascii) (s : string),
        String.prefix "assets" (String c s) = false ->
        replace_assets (String c s) = String c (replace_assets s))
  /\ (forall manifest : json,
        read_manifest filePath w = Ok manifest ->
        breaks manifest = true ->
        getArtifactsFromManifest path_join filePath w = (console_error TypeError w, []))
  /\ (forall e : exn,
        read_manifest filePath w = Throw e ->
        getArtifactsFromManifest path_join filePath w = (console_error e w, []))
  /\ (forall e : exn,
        getArtifactsFromManifest path_join (manifestPath path_join) w
          = (console_error e w, []) ->
        main path_join w = (console_error e w, Ok ())).
Proof.
  split; [| split; [| split; [| split; [| split; [| split]]]]].
  - intros manifest Hread Hfine.
    rewrite (getArtifactsFromManifest_decoded _ _ _ Hread), Hfine. reflexivity.
  - apply in_kept.
  - apply replace_assets_match.
  - apply replace_assets_other.
  - intros manifest Hread Hbreaks.
    rewrite (getArtifactsFromManifest_decoded _ _ _ Hread), Hbreaks. reflexivity.
  - intros e Hread. unfold getArtifactsFromManifest. now rewrite Hread.
  - intros e Hlogged. unfold main. now rewrite Hlogged.
Qed.

End IndexClaims.

Lemma getArtifactsFromManifest_spec_witness :
  read_manifest (index_json := sample_manifests) "cdk.out/manifest.json" with_index
    = Ok sample_index
  /\ breaks sample_index = false
  /\ getArtifactsFromManifest (index_json := sample_manifests) posix_join
       "cdk.out/manifest.json" with_index
     = (with_index, ["cdk.out/Queue.template.json"; "cdk.out/Topic.template.json"]).
Proof.
  split; [reflexivity |]. split; [reflexivity |].
  apply (proj1 (getArtifactsFromManifest_spec (template_json := sample_templates)
                  (index_json := sample_manifests) posix_join
                  "cdk.out/manifest.json" with_index) sample_index);
    reflexivity.
Defined.

(** An index that is missing is logged and yields no artifact. *)
Example missing_index_logged :
  main (template_json := sample_templates) (index_json := sample_manifests)
    posix_join one_missing
  = (console_error (ENOENT "cdk.out/manifest.json") one_missing, Ok ()).
Proof. reflexivity. Qed.

(** An asset manifest with a number for a file makes the loop throw: the
    error is logged and the artifact found before it is dropped too. *)
Example numbered_file_logged :
  breaks numbered_file_index = true
  /\ getArtifactsFromManifest (index_json := sample_manifests) posix_join
       "cdk.out/manifest.json" with_numbered_file_index
     = (console_error TypeError with_numbered_file_index, []).
Proof. split; reflexivity. Qed.

(** C10 as stated fails: the asset manifest of [unnamed_index] carries a
    [properties.file] field, holding the empty string, and is not
    returned. *)
Lemma empty_file_name_dropped :
  read_manifest (index_json := sample_manifests) "cdk.out/manifest.json"
    with_unnamed_index = Ok unnamed_index
  /\ files_carried unnamed_index = [EmptyString]
  /\ getArtifactsFromManifest (index_json := sample_manifests) posix_join
       "cdk.out/manifest.json" with_unnamed_index
     = (with_unnamed_index, [])
  /\ snd (getArtifactsFromManifest (index_json := sample_manifests) posix_join
            "cdk.out/manifest.json" with_unnamed_index)
     <> map (fun f => posix_join (cdkDir posix_join) (replace_assets f))
            (files_carried unnamed_index).
Proof.
  split; [reflexivity |]. split; [reflexivity |]. split; [reflexivity |].
  discriminate.
Qed.

(** ** Replacing assets by template *)

Lemma prefix_cons (a b : ascii) (p s : string) :
  String.prefix (String a p) (String b s)
  = if ascii_dec a b then String.prefix p s else false.
Proof. reflexivity. Qed.

Lemma prefix_nil_l (s : string) : String.prefix EmptyString s = true.
Proof. now destruct s. Qed.

Lemma prefix_split (p s : string) :
  String.prefix p s = true -> exists rest, s = p +:+ rest.
Proof.
  revert s. induction p as [|a p IH]; intros s H.
  - now exists s.
  - destruct s as [|b s]; [discriminate |].
    rewrite prefix_cons in H. destruct (ascii_dec a b) as [<- |]; [| discriminate].
    destruct (IH s H) as [rest ->]. now exists rest.
Qed.

Lemma occurs_cons (p : string) (c : ascii) (s : string) :
  occurs p (String c s) = String.prefix p (String c s) || occurs p s.
Proof. reflexivity. Qed.

(** A text without a match is copied as it is. *)
Lemma replace_assets_absent (s : string) :
  occurs "assets" s = false -> replace_assets s = s.
Proof.
  induction s as [|c s IH]; [reflexivity |].
  rewrite occurs_cons. intros [Hhere Hlater]%orb_false_elim.
  rewrite (replace_assets_other _ _ Hhere). f_equal. now apply IH.
Qed.

(** What the output starts with, short of a whole match, the input starts
    with too: the replacement text begins with none of these. *)
Ltac reflect_prefix previous :=
  let H := fresh "H" in
  let Hm := fresh "Hm" in
  intros s H; destruct s as [|c s]; [discriminate H |];
  destruct (String.prefix "assets" (String c s)) eqn:Hm;
  [ apply prefix_split in Hm as [rest Hm];
    rewrite Hm, replace_assets_match in H;
    vm_compute in H; discriminate H
  | rewrite (replace_assets_other _ _ Hm) in H;
    rewrite prefix_cons in H |- *;
    destruct (ascii_dec _ c); [| discriminate H];
    previous ].

Lemma output_prefix_s :
  forall s, String.prefix "s" (replace_assets s) = true -> String.prefix "s" s = true.
Proof. reflect_prefix ltac:(apply prefix_nil_l). Qed.

Lemma output_prefix_ts :
  forall s, String.prefix "ts" (replace_assets s) = true -> String.prefix "ts" s = true.
Proof. reflect_prefix ltac:(now apply output_prefix_s). Qed.

Lemma output_prefix_ets :
  forall s, String.prefix "ets" (replace_assets s) = true -> String.prefix "ets" s = true.
Proof. reflect_prefix ltac:(now apply output_prefix_ts). Qed.

Lemma output_prefix_sets :
  forall s, String.prefix "sets" (replace_assets s) = true -> String.prefix "sets" s = true.
Proof. reflect_prefix ltac:(now apply output_prefix_ets). Qed.

Lemma output_prefix_ssets :
  forall s, String.prefix "ssets" (replace_assets s) = true -> String.prefix "ssets" s = true.
Proof. reflect_prefix ltac:(now apply output_prefix_sets). Qed.

Lemma occurs_after_template (s : string) :
  occurs "assets" ("template" +:+ s) = occurs "assets" s.
Proof. reflexivity. Qed.

Lemma replace_assets_clean_upto (n : nat) :
  forall s, String.length s <= n -> occurs "assets" (replace_assets s) = false.
Proof.
  induction n as [|n IH]; intros s Hlen.
  - destruct s; [reflexivity | simpl in Hlen; lia].
  - destruct s as [|c s]; [reflexivity |].
    destruct (String.prefix "assets" (String c s)) eqn:Hm.
    + apply prefix_split in Hm as [rest Hm]. rewrite Hm in Hlen |- *.
      rewrite replace_assets_match, occurs_after_template.
      apply IH. rewrite length_append in Hlen. simpl in Hlen. lia.
    + rewrite (replace_assets_other _ _ Hm), occurs_cons.
      apply orb_false_intro.
      * destruct (String.prefix "assets" (String c (replace_assets s))) eqn:Hout;
          [| reflexivity].
        rewrite <- Hm. rewrite prefix_cons in Hout |- *.
        destruct (ascii_dec _ c); [| discriminate Hout].
        symmetry. now apply output_prefix_ssets.
      * apply IH. simpl in Hlen. lia.
Qed.

(** No match is left in the output. *)
Lemma replace_assets_clean (s : string) :
  occurs "assets" (replace_assets s) = false.
Proof. now apply (replace_assets_clean_upto (String.length s)). Qed.

(** A match cannot begin in front of a match and run into it. *)
Lemma no_overlap (x b : string) :
  x <> EmptyString ->
  String.prefix "assets" (x +:+ "assets" +:+ b) = true ->
  String.prefix "assets" x = true.
Proof.
  intros Hx H. destruct x as [|c x]; [congruence |]. clear Hx.
  rewrite append_cons, prefix_cons in H. rewrite prefix_cons.
  destruct (ascii_dec _ c); [| discriminate H].
  do 5 (destruct x as [|c' x]; [vm_compute in H; discriminate H |];
        rewrite append_cons, prefix_cons in H; rewrite prefix_cons;
        destruct (ascii_dec _ c') as [Heq |]; [subst c' | discriminate H]).
  apply prefix_nil_l.
Qed.

(** X1. A file name in which assets does not occur is left as it is by
    the replacement, so its template path is the plain join with cdkDir. *)
Theorem template_path_without_assets
    (path_join : string -> string -> string) (f : string) :
  occurs "assets" f = false ->
  replace_assets f = f
  /\ template_path path_join f = path_join (cdkDir path_join) f.
Proof.
  intros Habsent. unfold template_path.
  rewrite (replace_assets_absent f Habsent). now split.
Qed.

Lemma template_path_without_assets_witness :
  occurs "assets" "tree.json" = false
  /\ replace_assets "tree.json" = "tree.json"
  /\ template_path posix_join "tree.json" = "cdk.out/tree.json".
Proof.
  split; [reflexivity |].
  apply (template_path_without_assets posix_join "tree.json"). reflexivity.
Defined.

(** X2. The replacement leaves no occurrence of assets in its result, for
    any input, and replacing a second time changes nothing. *)
Theorem replace_assets_idempotent (s : string) :
  occurs "assets" (replace_assets s) = false
  /\ replace_assets (replace_assets s) = replace_assets s.
Proof.
  split; [apply replace_assets_clean |].
  apply replace_assets_absent, replace_assets_clean.
Qed.

(** X3. When assets does not occur in the part of a file name in front of
    an occurrence, that part is kept, the occurrence becomes template, and
    the rest of the name is replaced in the same way. *)
Theorem replace_assets_first_match (a b : string) :
  occurs "assets" a = false ->
  replace_assets (a +:+ "assets" +:+ b) = a +:+ "template" +:+ replace_assets b.
Proof.
  induction a as [|c a IH]; intros Habsent.
  - apply replace_assets_match.
  - rewrite occurs_cons in Habsent.
    apply orb_false_elim in Habsent as [Hhere Hlater].
    change (replace_assets (String c (a +:+ "assets" +:+ b))
            = String c (a +:+ "template" +:+ replace_assets b)).
    rewrite replace_assets_other.
    + f_equal. now apply IH.
    + destruct (String.prefix "assets" (String c (a +:+ "assets" +:+ b))) eqn:Hm;
        [| reflexivity].
      rewrite <- Hhere. symmetry.
      apply (no_overlap (String c a) b); [discriminate | exact Hm].
Qed.

Lemma replace_assets_first_match_witness :
  occurs "assets" "Queue." = false
  /\ replace_assets ("Queue." +:+ "assets" +:+ ".json")
     = "Queue." +:+ "template" +:+ ".json".
Proof.
  split; [reflexivity |].
  apply (replace_assets_first_match "Queue." ".json"). reflexivity.
Defined.

(** ** More on the loop of createDotFile *)

(** X4. createDotFile throws exactly when some resource that is not
    skipped has no Properties object, and TypeError is the only exception
    it can throw. *)
Theorem createDotFile_throws_iff (template : CloudFormationTemplate) :
  (createDotFile template = Throw TypeError <->
   exists (name : string) (r : CloudFormationResource),
     In (name, r) (Resources template)
     /\ is_metadata r = false /\ Properties r = None)
  /\ (forall e : exn, createDotFile template = Throw e -> e = TypeError).
Proof.
  rewrite createDotFile_declarations. split; [split |].
  - destruct (renderable template) eqn:Hr; [discriminate |]. intros _.
    unfold renderable in Hr.
    assert (Hex : exists e, In e (Resources template)
                            /\ has_properties (snd e) = false).
    { induction (Resources template) as [|e es IH]; [discriminate |].
      simpl in Hr. destruct (has_properties (snd e)) eqn:He.
      - destruct (IH Hr) as (e' & Hin & He'). exists e'. split; [now right | exact He'].
      - exists e. split; [now left | exact He]. }
    destruct Hex as ([name r] & Hin & He). exists name, r.
    unfold has_properties in He. simpl in He.
    apply orb_false_elim in He as [Hmeta Hprops].
    destruct (Properties r); [discriminate | auto].
  - intros (name & r & Hin & Hmeta & Hnone).
    destruct (renderable template) eqn:Hr; [exfalso | reflexivity].
    unfold renderable in Hr. rewrite forallb_forall in Hr.
    specialize (Hr _ Hin). unfold has_properties in Hr. simpl in Hr.
    rewrite Hmeta, Hnone in Hr. discriminate.
  - intros e. destruct (renderable template); [discriminate | congruence].
Qed.

Lemma resource_step_explicit (dotFile name : string) (r : CloudFormationResource) :
  resource_step dotFile (name, explicit_dependencies r)
  = resource_step dotFile (name, r).
Proof.
  unfold resource_step, explicit_dependencies, dependencies. simpl.
  now destruct (DependsOn r).
Qed.

(** X5. A resource without DependsOn is rendered exactly like one whose
    DependsOn is the empty list: writing the list out for every resource
    does not change what createDotFile returns. *)
Theorem createDotFile_absent_DependsOn (template : CloudFormationTemplate) :
  createDotFile {| Resources := JS.map_values explicit_dependencies (Resources template) |}
  = createDotFile template.
Proof.
  unfold createDotFile. simpl. rewrite EraseFacts.own_entries_map_values.
  generalize header.
  induction (JS.own_entries (Resources template)) as [|[name r] es IH]; intros dotFile;
    [reflexivity |].
  simpl. rewrite resource_step_explicit.
  destruct (resource_step dotFile (name, r)) as [dotFile'|]; simpl; [| reflexivity].
  unfold mbind, result_bind in IH. specialize (IH dotFile').
  unfold JS.map_values in *. exact IH.
Qed.

Module OrderFacts.
Import JS.

Lemma index_le_trans {A} : Transitive (@index_le A).
Proof. intros x y z. unfold index_le. lia. Qed.

Lemma insert_sorted_least {A} (e : string * A) (l : list (string * A)) :
  Forall (index_le e) l -> insert_sorted e l = e :: l.
Proof.
  destruct 1 as [|e' l He _]; [reflexivity |].
  simpl. unfold index_le in He. apply N.leb_le in He. now rewrite He.
Qed.

Lemma filter_insert_sorted {A} (p : string * A -> bool) (e : string * A) l :
  StronglySorted index_le l ->
  List.filter p (insert_sorted e l)
  = if p e then insert_sorted e (List.filter p l) else List.filter p l.
Proof.
  induction 1 as [|e' l Hl IH He']; simpl.
  - now destruct (p e).
  - destruct (_ <=? _)%N eqn:Hle.
    + simpl. destruct (p e); [| reflexivity].
      symmetry. apply insert_sorted_least.
      apply N.leb_le in Hle.
      apply List.Forall_forall. intros x Hx.
      apply (filter_In p x (e' :: l)) in Hx as [Hx _].
      destruct Hx as [<- | Hx]; [exact Hle |].
      rewrite List.Forall_forall in He'. specialize (He' x Hx).
      unfold index_le in *. lia.
    + simpl. rewrite IH. destruct (p e'), (p e); simpl; try reflexivity.
      now rewrite Hle.
Qed.

Lemma filter_sort_by_index {A} (p : string * A -> bool) (l : list (string * A)) :
  List.filter p (sort_by_index l) = sort_by_index (List.filter p l).
Proof.
  induction l as [|e l IH]; [reflexivity |].
  change (sort_by_index (e :: l)) with (insert_sorted e (sort_by_index l)).
  rewrite filter_insert_sorted.
  - simpl. destruct (p e); [| exact IH].
    change (sort_by_index (e :: List.filter p l))
      with (insert_sorted e (sort_by_index (List.filter p l))).
    now rewrite IH.
  - apply Sorted_StronglySorted; [apply index_le_trans |].
    apply JSFacts.sort_by_index_sorted.
Qed.

Lemma filter_filter_comm {A} (p q : A -> bool) (l : list A) :
  List.filter p (List.filter q l) = List.filter q (List.filter p l).
Proof.
  induction l as [|x l IH]; [reflexivity |].
  simpl. destruct (p x) eqn:Hp, (q x) eqn:Hq; simpl; rewrite ?Hp, ?Hq, IH; reflexivity.
Qed.

(** Leaving entries out does not change the order of those that stay. *)
Lemma own_entries_filter {A} (p : string * A -> bool) (o : object A) :
  own_entries (List.filter p o) = List.filter p (own_entries o).
Proof.
  unfold own_entries. rewrite List.filter_app, filter_sort_by_index.
  now rewrite !(filter_filter_comm p).
Qed.

(** Entries with ordinary names that are added last are enumerated last. *)
Lemma own_entries_app_named {A} (o1 o2 : object A) :
  forallb (fun e => negb (is_index (fst e))) o2 = true ->
  own_entries (o1 ++ o2) = own_entries o1 ++ o2.
Proof.
  intros Hnamed. unfold own_entries. rewrite !List.filter_app.
  assert (Hidx : List.filter (fun e => is_index (fst e)) o2 = []).
  { induction o2 as [|e o2 IH]; [reflexivity |].
    simpl in *. apply andb_prop in Hnamed as [He Ho2].
    apply negb_true_iff in He. rewrite He. now apply IH. }
  assert (Hrest : List.filter (fun e => negb (is_index (fst e))) o2 = o2).
  { induction o2 as [|e o2 IH]; [reflexivity |].
    simpl in *. apply andb_prop in Hnamed as [He Ho2].
    rewrite He. f_equal. apply IH; [exact Ho2 |].
    apply negb_true_iff in He. rewrite He in Hidx. exact Hidx. }
  rewrite Hidx, Hrest, app_nil_r. now rewrite app_assoc.
Qed.

End OrderFacts.

Lemma resource_step_metadata (dotFile : string)
    (entry : string * CloudFormationResource) :
  is_metadata (snd entry) = true -> resource_step dotFile entry = Ok dotFile.
Proof.
  unfold resource_step, is_metadata. now intros ->.
Qed.

Lemma for_in_skip_metadata (es : list (string * CloudFormationResource))
    (dotFile : string) :
  JS.for_in resource_step
    (List.filter (fun e => negb (is_metadata (snd e))) es) dotFile
  = JS.for_in resource_step es dotFile.
Proof.
  revert dotFile. induction es as [|e es IH]; intros dotFile; [reflexivity |].
  simpl. destruct (is_metadata (snd e)) eqn:Hmeta; simpl.
  - now rewrite IH, (resource_step_metadata _ _ Hmeta).
  - destruct (resource_step dotFile e); simpl; [apply IH | reflexivity].
Qed.

(** X6. The AWS::CDK::Metadata resources leave no trace: removing them
    from a template does not change what createDotFile returns, whether
    it is a document or the exception, and whatever those resources
    hold, a missing Properties included. *)
Theorem createDotFile_without_metadata (template : CloudFormationTemplate) :
  createDotFile (without_metadata template) = createDotFile template.
Proof.
  unfold createDotFile, without_metadata, listed. simpl.
  now rewrite OrderFacts.own_entries_filter, for_in_skip_metadata.
Qed.

(** X7. Resources with ordinary names (none an array index) that are
    added at the end of a template are rendered at the end: the document
    is the header, the declarations of the template as it was, the
    declarations of the added resources in the order they were added,
    and the footer. *)
Theorem createDotFile_append_resources
    (template : CloudFormationTemplate)
    (added : JS.object CloudFormationResource) :
  forallb (fun e => negb (JS.is_index (fst e))) added = true ->
  renderable {| Resources := Resources template ++ added |} = true ->
  createDotFile {| Resources := Resources template ++ added |}
  = Ok (header +:+ render_decls (declarations template)
        +:+ render_decls (flat_map resource_decls added) +:+ footer).
Proof.
  intros Hnamed Hr. rewrite createDotFile_declarations, Hr.
  unfold declarations. simpl.
  rewrite (OrderFacts.own_entries_app_named _ _ Hnamed), flat_map_app.
  now rewrite render_decls_app, append_assoc.
Qed.

Lemma createDotFile_append_resources_witness :
  createDotFile
    {| Resources := Resources numbered
                    ++ [("Alarm", resource "AWS::CloudWatch::Alarm" (Some ["1"]) (Some []))] |}
  = Ok (header +:+ render_decls (declarations numbered)
        +:+ render_decls [NodeDecl "Alarm" "AWS::CloudWatch::Alarm"; EdgeDecl "Alarm" "1"]
        +:+ footer).
Proof.
  apply (createDotFile_append_resources numbered
           [("Alarm", resource "AWS::CloudWatch::Alarm" (Some ["1"]) (Some []))]);
    reflexivity.
Defined.

(** ** More on the batch *)

Lemma append_inj_r (a b s : string) : a +:+ s = b +:+ s -> a = b.
Proof.
  revert b. induction a as [|x a IH]; intros b H.
  - destruct b as [|y b]; [reflexivity |].
    apply (f_equal String.length) in H.
    rewrite append_nil, length_append in H. simpl in H. lia.
  - destruct b as [|y b].
    + apply (f_equal String.length) in H.
      rewrite append_nil, length_append in H. simpl in H. lia.
    + rewrite !append_cons in H. injection H as -> H. f_equal. now apply IH.
Qed.

Lemma written_same (path data : string) (w : World) :
  files w !! path = Some data -> written path data w = w.
Proof.
  intros H. destruct w as [fs hidden locked log]. unfold written. simpl in *.
  f_equal. now apply insert_id.
Qed.

Section BatchFacts.

Context {template_json : JSON CloudFormationTemplate}.

(** What an artifact is read as depends on the content of its file only. *)
Lemma read_template_same (artifactPath : string) (w1 w2 : World) :
  unreadable w1 = unreadable w2 ->
  files w1 !! artifactPath = files w2 !! artifactPath ->
  read_template artifactPath w1 = read_template artifactPath w2.
Proof.
  intros Hu H. unfold read_template, readFileSync. now rewrite Hu, H.
Qed.

Lemma createDotFiles_unwritable (l : list string) (w : World) :
  unwritable (fst (createDotFiles l w)) = unwritable w.
Proof.
  revert w. induction l as [|p l IH]; intros w; simpl; [reflexivity |].
  destruct (render_artifact p w) as [w'|e] eqn:Hp; [| reflexivity].
  rewrite IH.
  apply render_artifact_ok in Hp as (template & document & _ & _ & _ & Hw).
  now rewrite Hw.
Qed.

Lemma createDotFiles_unreadable (l : list string) (w : World) :
  unreadable (fst (createDotFiles l w)) = unreadable w.
Proof.
  revert w. induction l as [|p l IH]; intros w; simpl; [reflexivity |].
  destruct (render_artifact p w) as [w'|e] eqn:Hp; [| reflexivity].
  rewrite IH.
  apply render_artifact_ok in Hp as (template & document & _ & _ & _ & Hw).
  now rewrite Hw.
Qed.

Lemma createDotFiles_other_files (l : list string) (w : World) (x : string) :
  (forall p, In p l -> x <> p +:+ ".dot") ->
  files (fst (createDotFiles l w)) !! x = files w !! x.
Proof.
  revert w. induction l as [|p l IH]; intros w Hx; simpl; [reflexivity |].
  destruct (render_artifact p w) as [w'|e] eqn:Hp; [| reflexivity].
  rewrite IH; [| intros q Hq; apply Hx; now right].
  apply render_artifact_ok in Hp as (template & document & _ & _ & _ & Hw).
  rewrite Hw. simpl. apply lookup_insert_ne.
  intros Heq. apply (Hx p); [now left | now symmetry].
Qed.

Lemma createDotFiles_keeps_files (l : list string) (w : World) (x : string) :
  is_Some (files w !! x) -> is_Some (files (fst (createDotFiles l w)) !! x).
Proof.
  revert w. induction l as [|p l IH]; intros w Hx; simpl; [exact Hx |].
  destruct (render_artifact p w) as [w'|e] eqn:Hp; [| exact Hx].
  apply IH.
  apply render_artifact_ok in Hp as (template & document & _ & _ & _ & Hw).
  rewrite Hw. simpl. rewrite lookup_insert. case_decide; [eauto | exact Hx].
Qed.

(** What a batch that ended normally has done, when no artifact of the
    batch is itself the document of another. *)
Lemma createDotFiles_ok_inv (l : list string) (w w' : World) :
  createDotFiles l w = (w', Ok ()) ->
  (forall p q, In p l -> In q l -> p +:+ ".dot" <> q) ->
  forall p, In p l ->
    exists template document,
      read_template p w = Ok template
      /\ createDotFile template = Ok document
      /\ ((p +:+ ".dot") ∉ unwritable w)
      /\ files w' !! (p +:+ ".dot") = Some document.
Proof.
  revert w. induction l as [|p0 l IH]; intros w Hrun Hfresh p Hin; [destruct Hin |].
  simpl in Hrun.
  destruct (render_artifact p0 w) as [w1|e] eqn:Hp0; [| discriminate Hrun].
  apply render_artifact_ok in Hp0 as (t0 & d0 & Hread0 & Hdoc0 & Hfree0 & Hw1).
  assert (Hrest : forall q, In q l ->
            exists template document,
              read_template q w = Ok template
              /\ createDotFile template = Ok document
              /\ ((q +:+ ".dot") ∉ unwritable w)
              /\ files w' !! (q +:+ ".dot") = Some document).
  { intros q Hq.
    destruct (IH w1 Hrun (fun a b Ha Hb => Hfresh a b (or_intror Ha) (or_intror Hb)) q Hq)
      as (t & d & Hread & Hdoc & Hfree & Hfile).
    exists t, d. rewrite Hw1 in Hread, Hfree.
    split; [| auto].
    rewrite <- Hread. apply read_template_same; [reflexivity |]. simpl.
    symmetry. apply lookup_insert_ne.
    apply Hfresh; [now left | now right]. }
  destruct Hin as [<- | Hin]; [| now apply Hrest].
  destruct (in_dec String.string_dec p0 l) as [Hagain | Hlast].
  - destruct (Hrest p0 Hagain) as (t & d & Hread & Hdoc & Hfree & Hfile).
    exists t, d. auto.
  - exists t0, d0. split; [exact Hread0 |]. split; [exact Hdoc0 |].
    split; [exact Hfree0 |].
    replace w' with (fst (createDotFiles l w1)) by now rewrite Hrun.
    rewrite createDotFiles_other_files.
    + rewrite Hw1. simpl. apply lookup_insert_eq.
    + intros q Hq Heq. apply append_inj_r in Heq. now subst q.
Qed.

(** A batch whose documents are all in place already leaves the world as
    it is. *)
Lemma createDotFiles_in_place (l : list string) (w : World) :
  (forall p, In p l ->
     exists template document,
       read_template p w = Ok template
       /\ createDotFile template = Ok document
       /\ ((p +:+ ".dot") ∉ unwritable w)
       /\ files w !! (p +:+ ".dot") = Some document) ->
  createDotFiles l w = (w, Ok ()).
Proof.
  induction l as [|p l IH]; intros Hall; [reflexivity |].
  destruct (Hall p (or_introl eq_refl)) as (t & d & Hread & Hdoc & Hfree & Hfile).
  simpl. unfold render_artifact. rewrite Hread. simpl. rewrite Hdoc. simpl.
  unfold writeFileSync. case_decide; [contradiction |].
  rewrite (written_same _ _ _ Hfile).
  apply IH. intros q Hq. apply Hall. now right.
Qed.

(** A batch in which every artifact can be rendered ends normally. *)
Lemma createDotFiles_ok (l : list string) (w : World) :
  (forall p, In p l ->
     exists template document,
       read_template p w = Ok template
       /\ createDotFile template = Ok document
       /\ ((p +:+ ".dot") ∉ unwritable w)) ->
  (forall p q, In p l -> In q l -> p +:+ ".dot" <> q) ->
  snd (createDotFiles l w) = Ok ().
Proof.
  revert w. induction l as [|p l IH]; intros w Hall Hfresh; [reflexivity |].
  destruct (Hall p (or_introl eq_refl)) as (t & d & Hread & Hdoc & Hfree).
  simpl. unfold render_artifact. rewrite Hread. simpl. rewrite Hdoc. simpl.
  unfold writeFileSync. case_decide; [contradiction |].
  apply IH.
  - intros q Hq.
    destruct (Hall q (or_intror Hq)) as (t' & d' & Hread' & Hdoc' & Hfree').
    exists t', d'. split; [| split; assumption].
    rewrite <- Hread'. apply read_template_same; [reflexivity |]. simpl.
    apply lookup_insert_ne. apply Hfresh; [now left | now right].
  - intros a b Ha Hb. apply Hfresh; now right.
Qed.

End BatchFacts.

Section BatchExtras.

Context {template_json : JSON CloudFormationTemplate}.

(** X8. createDotFiles changes no file other than the .dot files of the
    artifacts it is given: every other path holds what it held before,
    no file disappears, and neither the console nor the set of paths
    that cannot be written is touched. *)
Theorem createDotFiles_touches_only_dot_files
    (artifactPaths : list string) (w : World) :
  (forall x : string,
      (forall p, In p artifactPaths -> x <> p +:+ ".dot") ->
      files (fst (createDotFiles artifactPaths w)) !! x = files w !! x)
  /\ (forall x : string,
        is_Some (files w !! x) ->
        is_Some (files (fst (createDotFiles artifactPaths w)) !! x))
  /\ console (fst (createDotFiles artifactPaths w)) = console w
  /\ unwritable (fst (createDotFiles artifactPaths w)) = unwritable w.
Proof.
  split; [apply createDotFiles_other_files |].
  split; [intros x; apply createDotFiles_keeps_files |].
  split; [apply createDotFiles_console | apply createDotFiles_unwritable].
Qed.

(** X9. When createDotFiles ends with an exception, the exception comes
    from the first artifact that fails: the artifacts in front of it were
    rendered, the world is the one they left, and the exception is the
    one thrown by reading that artifact's file, by JSON.parse on its
    content, by createDotFile on its template, or by writing its .dot
    file. *)
Theorem createDotFiles_first_failure
    (artifactPaths : list string) (w w' : World) (e : exn) :
  createDotFiles artifactPaths w = (w', Throw e) ->
  exists (before : list string) (bad : string) (after : list string),
    artifactPaths = before ++ bad :: after
    /\ createDotFiles before w = (w', Ok ())
    /\ (   readFileSync bad w' = Throw e
        \/ (exists text, readFileSync bad w' = Ok text
                         /\ JSON_parse (A := CloudFormationTemplate) text = Throw e)
        \/ (exists template, read_template bad w' = Ok template
                             /\ createDotFile template = Throw e)
        \/ (exists template document,
              read_template bad w' = Ok template
              /\ createDotFile template = Ok document
              /\ writeFileSync (bad +:+ ".dot") document w' = Throw e)).
Proof.
  revert w. induction artifactPaths as [|p l IH]; intros w Hrun; [discriminate Hrun |].
  simpl in Hrun. destruct (render_artifact p w) as [w1|e1] eqn:Hp.
  - destruct (IH w1 Hrun) as (before & bad & after & -> & Hbefore & Hwhy).
    exists (p :: before), bad, after. split; [reflexivity |].
    split; [| exact Hwhy]. simpl. now rewrite Hp.
  - injection Hrun as <- <-. exists [], p, l.
    split; [reflexivity |]. split; [reflexivity |].
    unfold render_artifact, read_template in *.
    destruct (readFileSync p w) as [text|e0]; simpl in Hp.
    + destruct (JSON_parse text) as [template|e0] eqn:Hparse; simpl in Hp.
      * destruct (createDotFile template) as [document|e0] eqn:Hdoc; simpl in Hp.
        -- right. right. right. exists template, document. auto.
        -- right. right. left. exists template. injection Hp as <-. auto.
      * right. left. exists text. injection Hp as <-. auto.
    + left. injection Hp as <-. reflexivity.
Qed.

(** X10. When every artifact of a batch can be read, parsed and rendered,
    its .dot path can be written, and no artifact of the batch is itself
    the .dot of another, createDotFiles ends normally and the .dot file
    of every artifact holds the document of that artifact. *)
Theorem createDotFiles_all_rendered (artifactPaths : list string) (w : World) :
  (forall p, In p artifactPaths ->
     exists template document,
       read_template p w = Ok template
       /\ createDotFile template = Ok document
       /\ ((p +:+ ".dot") ∉ unwritable w)) ->
  (forall p q, In p artifactPaths -> In q artifactPaths -> p +:+ ".dot" <> q) ->
  snd (createDotFiles artifactPaths w) = Ok ()
  /\ (forall p template document,
        In p artifactPaths ->
        read_template p w = Ok template ->
        createDotFile template = Ok document ->
        files (fst (createDotFiles artifactPaths w)) !! (p +:+ ".dot")
        = Some document).
Proof.
  intros Hall Hfresh.
  pose proof (createDotFiles_ok _ _ Hall Hfresh) as Hok.
  split; [exact Hok |].
  intros p template document Hin Hread Hdoc.
  destruct (createDotFiles artifactPaths w) as [w' outcome] eqn:Hrun.
  simpl in Hok. subst outcome.
  destruct (createDotFiles_ok_inv _ _ _ Hrun Hfresh p Hin)
    as (t & d & Hread' & Hdoc' & _ & Hfile).
  simpl. rewrite Hfile. congruence.
Qed.

(** X11. Running a batch that ended normally a second time changes
    nothing and ends normally again, provided no artifact of the batch is
    itself the .dot of another. *)
Theorem createDotFiles_again (artifactPaths : list string) (w w' : World) :
  (forall p q, In p artifactPaths -> In q artifactPaths -> p +:+ ".dot" <> q) ->
  createDotFiles artifactPaths w = (w', Ok ()) ->
  createDotFiles artifactPaths w' = (w', Ok ()).
Proof.
  intros Hfresh Hrun. apply createDotFiles_in_place. intros p Hin.
  destruct (createDotFiles_ok_inv _ _ _ Hrun Hfresh p Hin)
    as (t & d & Hread & Hdoc & Hfree & Hfile).
  exists t, d.
  assert (Hw' : w' = fst (createDotFiles artifactPaths w)) by now rewrite Hrun.
  split; [| split; [exact Hdoc | split; [| exact Hfile]]].
  - rewrite <- Hread. apply read_template_same; rewrite Hw'.
    + apply createDotFiles_unreadable.
    + apply createDotFiles_other_files.
    intros q Hq Heq. apply (Hfresh q p Hq Hin). now symmetry.
  - rewrite Hw', createDotFiles_unwritable. exact Hfree.
Qed.

End BatchExtras.

Lemma createDotFiles_first_failure_witness :
  createDotFiles (template_json := sample_templates) ["b.json"; "a.json"; "c.json"]
    first_is_directory
  = (written "b.json.dot" two_resources_text first_is_directory, Throw (EISDIR "a.json"))
  /\ exists (before : list string) (bad : string) (after : list string),
       ["b.json"; "a.json"; "c.json"] = before ++ bad :: after
       /\ createDotFiles (template_json := sample_templates) before first_is_directory
          = (written "b.json.dot" two_resources_text first_is_directory, Ok ()).
Proof.
  split; [reflexivity |].
  destruct (createDotFiles_first_failure (template_json := sample_templates)
              ["b.json"; "a.json"; "c.json"] first_is_directory
              (written "b.json.dot" two_resources_text first_is_directory)
              (EISDIR "a.json") eq_refl)
    as (before & bad & after & Hsplit & Hbefore & _).
  exists before, bad, after. split; [exact Hsplit | exact Hbefore].
Defined.

Lemma createDotFiles_all_rendered_witness :
  snd (createDotFiles (template_json := sample_templates)
         ["a.json"; "b.json"] both_valid) = Ok ()
  /\ files (fst (createDotFiles (template_json := sample_templates)
                   ["a.json"; "b.json"] both_valid)) !! "a.json.dot"
     = Some two_resources_text
  /\ files (fst (createDotFiles (template_json := sample_templates)
                   ["a.json"; "b.json"] both_valid)) !! "b.json.dot"
     = Some (header +:+ render_decls (declarations queue_stack) +:+ footer).
Proof.
  destruct (createDotFiles_all_rendered (template_json := sample_templates)
              ["a.json"; "b.json"] both_valid) as [Hok Hfiles].
  - intros p [<- | [<- | []]]; eexists _, _;
      (split; [reflexivity |]; split; [reflexivity |]);
      apply (bool_decide_unpack _); vm_compute; exact I.
  - intros p q [<- | [<- | []]] [<- | [<- | []]] Heq;
      vm_compute in Heq; discriminate Heq.
  - split; [exact Hok |]. split.
    + apply (Hfiles "a.json" two_resources); [now left | reflexivity | reflexivity].
    + apply (Hfiles "b.json" queue_stack); [right; now left | reflexivity | reflexivity].
Defined.

Lemma createDotFiles_again_witness :
  createDotFiles (template_json := sample_templates) ["a.json"; "b.json"] both_valid
    = (fst (createDotFiles (template_json := sample_templates)
              ["a.json"; "b.json"] both_valid), Ok ())
  /\ createDotFiles (template_json := sample_templates) ["a.json"; "b.json"]
       (fst (createDotFiles (template_json := sample_templates)
               ["a.json"; "b.json"] both_valid))
     = (fst (createDotFiles (template_json := sample_templates)
               ["a.json"; "b.json"] both_valid), Ok ()).
Proof.
  split; [reflexivity |].
  apply (createDotFiles_again (template_json := sample_templates)
           ["a.json"; "b.json"] both_valid).
  - intros p q [<- | [<- | []]] [<- | [<- | []]] Heq;
      vm_compute in Heq; discriminate Heq.
  - reflexivity.
Defined.

(** ** The first line of the body *)

(** X12. The header does not end with a line break: when a template in
    which each rendered resource carries a Properties object has a
    resource that is rendered, the document is the header text, ending in
    the semicolon of the node styling statement, followed on the same
    line by two spaces, the quoted name of the first rendered resource,
    the label opening and its type tag. *)
Theorem createDotFile_first_declaration
    (template : CloudFormationTemplate) (name : string)
    (r : CloudFormationResource) (others : list (string * CloudFormationResource)) :
  renderable template = true ->
  rendered template = (name, r) :: others ->
  exists tail : string,
    createDotFile template =
    Ok ("digraph Resources {"
        +:+ String "010"%char
              ("node [shape=box fontname="
               +:+ String "034"%char
                     ("Avenir, Helvetica"
                      +:+ String "034"%char
                            (" fontsize=10];  "
                             +:+ String "034"%char
                                   (name
                                    +:+ String "034"%char
                                          (" [label="
                                           +:+ String "034"%char (Type_ r +:+ tail))))))).
Proof.
  intros Hr Hfirst. rewrite createDotFile_text, Hr.
  rewrite declarations_rendered, Hfirst.
  change (flat_map node_and_edges ((name, r) :: others))
    with (node_and_edges (name, r) ++ flat_map node_and_edges others).
  rewrite !dot_statements_render, render_decls_app, <- !dot_statements_render.
  unfold node_and_edges at 1. simpl fst. simpl snd.
  unfold dot_statements at 1.
  rewrite concat_join.
  change (join (map dot_statement (NodeDecl name (label_of r) :: ?l)))
    with (dot_statement (NodeDecl name (label_of r)) +:+ join (map dot_statement l)).
  unfold dot_statement at 1. unfold label_of, dot_open.
  eexists. f_equal.
  rewrite ?append_assoc, ?append_cons, ?append_nil.
  repeat (rewrite ?append_assoc, ?append_cons, ?append_nil; f_equal).
Qed.

Lemma createDotFile_first_declaration_witness :
  renderable two_resources = true
  /\ rendered two_resources
     = [("A", resource "X" (Some ["B"]) (Some []));
        ("B", resource "Y" (Some []) (Some []))]
  /\ exists tail : string,
       createDotFile two_resources =
       Ok ("digraph Resources {"
           +:+ String "010"%char
                 ("node [shape=box fontname="
                  +:+ String "034"%char
                        ("Avenir, Helvetica"
                         +:+ String "034"%char
                               (" fontsize=10];  "
                                +:+ String "034"%char
                                      ("A"
                                       +:+ String "034"%char
                                             (" [label="
                                              +:+ String "034"%char ("X" +:+ tail))))))).
Proof.
  split; [reflexivity |]. split; [reflexivity |].
  apply (createDotFile_first_declaration two_resources "A"
           (resource "X" (Some ["B"]) (Some []))
           [("B", resource "Y" (Some []) (Some []))]);
    reflexivity.
Defined.

(** ** The whole script *)

Section ScriptExtras.

Context {template_json : JSON CloudFormationTemplate}
        {index_json : JSON json}.
Variable path_join : string -> string -> string.

Lemma getArtifactsFromManifest_world (filePath : string) (w : World) :
  fst (getArtifactsFromManifest path_join filePath w) = w
  \/ exists e : exn,
       getArtifactsFromManifest path_join filePath w = (console_error e w, []).
Proof.
  unfold getArtifactsFromManifest.
  match goal with
  | |- context [match ?attempt with Ok _ => _ | Throw _ => _ end] =>
      destruct attempt as [collected|e]
  end.
  - now left.
  - right. now exists e.
Qed.

(** X13. Whatever the index and the artifacts hold, a run of the script
    changes no file whose path does not end in .dot and removes no file.
    The script calls console.error at most once, in the handler of
    getArtifactsFromManifest: it does so when the index cannot be read or
    parsed or the loop over the artifacts throws, and then it writes
    nothing and no exception leaves it; otherwise it logs nothing.  An
    exception that leaves createDotFiles is not logged by the script. *)
Theorem main_writes_only_dot_files (w : World) :
  (forall x : string,
      (forall p : string, x <> p +:+ ".dot") ->
      files (fst (main path_join w)) !! x = files w !! x)
  /\ (forall x : string,
        is_Some (files w !! x) -> is_Some (files (fst (main path_join w)) !! x))
  /\ (console (fst (main path_join w)) = console w
      \/ exists e : exn,
           console (fst (main path_join w)) = console w ++ [e]
           /\ main path_join w = (console_error e w, Ok ()))
  /\ (forall e : exn,
        read_manifest (manifestPath path_join) w = Throw e ->
        main path_join w = (console_error e w, Ok ()))
  /\ (forall manifest : json,
        read_manifest (manifestPath path_join) w = Ok manifest ->
        breaks manifest = true ->
        main path_join w = (console_error TypeError w, Ok ()))
  /\ (forall manifest : json,
        read_manifest (manifestPath path_join) w = Ok manifest ->
        breaks manifest = false ->
        console (fst (main path_join w)) = console w)
  /\ (forall e : exn,
        snd (main path_join w) = Throw e ->
        console (fst (main path_join w)) = console w).
Proof.
  assert (Hframe :
    (forall x : string,
        (forall p : string, x <> p +:+ ".dot") ->
        files (fst (main path_join w)) !! x = files w !! x)
    /\ (forall x : string,
          is_Some (files w !! x) -> is_Some (files (fst (main path_join w)) !! x))
    /\ (console (fst (main path_join w)) = console w
        \/ exists e : exn,
             console (fst (main path_join w)) = console w ++ [e]
             /\ main path_join w = (console_error e w, Ok ()))
    /\ (forall e : exn,
          snd (main path_join w) = Throw e ->
          console (fst (main path_join w)) = console w)).
  { unfold main.
    destruct (getArtifactsFromManifest_world (manifestPath path_join) w)
      as [Hw | [e He]].
    - destruct (getArtifactsFromManifest path_join (manifestPath path_join) w)
        as [w0 found]. simpl in Hw. subst w0.
      split; [| split; [| split]].
      + intros x Hx. apply createDotFiles_other_files. intros p _. apply Hx.
      + intros x. apply createDotFiles_keeps_files.
      + left. apply createDotFiles_console.
      + intros e _. apply createDotFiles_console.
    - rewrite He. simpl. split; [reflexivity |]. split; [auto |]. split.
      + right. exists e. split; reflexivity.
      + intros e' He'. discriminate He'. }
  destruct Hframe as (Hother & Hkeep & Hlog & Hthrow).
  split; [exact Hother |]. split; [exact Hkeep |]. split; [exact Hlog |].
  split; [| split; [| split; [| exact Hthrow]]].
  - intros e Hread. unfold main, getArtifactsFromManifest. now rewrite Hread.
  - intros manifest Hread Hbreaks. unfold main.
    now rewrite (getArtifactsFromManifest_decoded _ _ _ _ Hread), Hbreaks.
  - intros manifest Hread Hfine. unfold main.
    rewrite (getArtifactsFromManifest_decoded _ _ _ _ Hread), Hfine.
    apply createDotFiles_console.
Qed.

End ScriptExtras.
